(** * Documentation crawler: the three NinjaTrader scraper variants

    A shallow embedding of
    - [ninja/python/ninjatrader_docs_scraper.py]   (module [DocsScraper]),
    - [ninja/python/ninjatrader-selenium-scraper.py] (module [SeleniumScraper]),
    - [ninja/python/ninjatrader_api_scraper.py]    (module [ApiScraper]),
    together with the parts of the Python library they call:
    [str] methods (module [PyStr]) and [urllib.parse] (module [UrlParse]).

    Python [str] values are modelled as [string] (sequences of 8-bit
    characters), Python [set]s of strings as [gset string], and [None] /
    a raised exception as [None] of an [option]. *)

From Stdlib Require Import Ascii String DecimalString.
From stdpp Require Import gmap strings list sorting.

Set Warnings "-clear-no-such-hyp".

(* ===================================================================== *)
(** ** Python string methods *)
(* ===================================================================== *)

Module PyStr.

(** [c in s] for a one-character string [c]. *)
Fixpoint contains (c : ascii) (s : string) : bool :=
  match s with
  | EmptyString => false
  | String a s' => if Ascii.eqb a c then true else contains c s'
  end.

(** [s.split(c, 1)] when [c in s]: the text before and after the first
    occurrence of [c]; [None] when [c] does not occur. *)
Fixpoint cut (c : ascii) (s : string) : option (string * string) :=
  match s with
  | EmptyString => None
  | String a s' =>
      if Ascii.eqb a c then Some (EmptyString, s')
      else match cut c s' with
           | Some (p, q) => Some (String a p, q)
           | None => None
           end
  end.

(** The longest prefix whose characters satisfy [p], and the rest. *)
Fixpoint span (p : ascii → bool) (s : string) : string * string :=
  match s with
  | EmptyString => (EmptyString, EmptyString)
  | String a s' =>
      if p a then let '(l, r) := span p s' in (String a l, r)
      else (EmptyString, s)
  end.

(** [(s[:i], s[i:])] for [i = s.rfind(c)], and [("", s)] when [c] does
    not occur. *)
Fixpoint rcut_keep (c : ascii) (s : string) : string * string :=
  match s with
  | EmptyString => (EmptyString, EmptyString)
  | String a s' =>
      if contains c s'
      then let '(p, q) := rcut_keep c s' in (String a p, q)
      else (EmptyString, s)
  end.

(** [s.lstrip(chars)], the set of characters given as a predicate. *)
Fixpoint lstrip (p : ascii → bool) (s : string) : string :=
  match s with
  | EmptyString => EmptyString
  | String a s' => if p a then lstrip p s' else s
  end.

(** Removal of every character satisfying [p]
    ([for b in ...: s = s.replace(b, "")]). *)
Fixpoint remove (p : ascii → bool) (s : string) : string :=
  match s with
  | EmptyString => EmptyString
  | String a s' => if p a then remove p s' else String a (remove p s')
  end.

Fixpoint forallb (p : ascii → bool) (s : string) : bool :=
  match s with
  | EmptyString => true
  | String a s' => p a && forallb p s'
  end.

Fixpoint map (f : ascii → ascii) (s : string) : string :=
  match s with
  | EmptyString => EmptyString
  | String a s' => String (f a) (map f s')
  end.

(** [s.startswith(p)]. *)
Fixpoint startswith (s p : string) : bool :=
  match p, s with
  | EmptyString, _ => true
  | String b p', String a s' => Ascii.eqb a b && startswith s' p'
  | String _ _, EmptyString => false
  end.

(** [p in s] for strings: [p] starts at some position of [s]. *)
Fixpoint isin (p s : string) : bool :=
  startswith s p ||
  match s with
  | EmptyString => false
  | String _ s' => isin p s'
  end.

(** [s.endswith(p)]. *)
Fixpoint endswith (s p : string) : bool :=
  String.eqb s p ||
  match s with
  | EmptyString => false
  | String _ s' => endswith s' p
  end.

Definition between (lo hi : nat) (c : ascii) : bool :=
  let n := nat_of_ascii c in (lo <=? n) && (n <=? hi).

Definition isupper (c : ascii) : bool := between 65 90 c.
Definition islower (c : ascii) : bool := between 97 122 c.
Definition isalpha (c : ascii) : bool := isupper c || islower c.
Definition isdigit (c : ascii) : bool := between 48 57 c.

Definition lower_char (c : ascii) : ascii :=
  if isupper c then ascii_of_nat (nat_of_ascii c + 32) else c.

(** [s.lower()] on the ASCII range. *)
Definition lower (s : string) : string := map lower_char s.

(** [c.isspace()] for a character below 256, as used by [strip()] and
    [split()]. *)
Definition isspace (c : ascii) : bool :=
  between 9 13 c || between 28 32 c || Ascii.eqb c "133" || Ascii.eqb c "160".

(** [s.strip()]. *)
Definition rstrip (p : ascii → bool) (s : string) : string :=
  String.rev (lstrip p (String.rev s)).
Definition strip (s : string) : string := rstrip isspace (lstrip isspace s).

(** [s.split()]: the maximal runs of non-white-space characters. *)
Fixpoint split_go (cur : option string) (s : string) : list string :=
  match s with
  | EmptyString => option_list (String.rev <$> cur)
  | String a s' =>
      if isspace a
      then option_list (String.rev <$> cur) ++ split_go None s'
      else split_go (Some (String a (default EmptyString cur))) s'
  end.
Definition split (s : string) : list string := split_go None s.

(** [s[len(p):]] when [s.startswith(p)]. *)
Fixpoint drop_prefix (p s : string) : option string :=
  match p, s with
  | EmptyString, _ => Some s
  | String b p', String a s' =>
      if Ascii.eqb a b then drop_prefix p' s' else None
  | String _ _, EmptyString => None
  end.

(** [s.replace(old, "")] for a non-empty [old]: occurrences are removed
    left to right, without overlap.  The recursion is on the length of
    [s], passed as [fuel]. *)
Fixpoint erase_go (fuel : nat) (old s : string) : string :=
  match fuel with
  | O => s
  | S fuel' =>
      match drop_prefix old s with
      | Some rest => erase_go fuel' old rest
      | None =>
          match s with
          | EmptyString => EmptyString
          | String a s' => String a (erase_go fuel' old s')
          end
      end
  end.
Definition erase (old s : string) : string :=
  match old with
  | EmptyString => s
  | _ => erase_go (String.length s) old s
  end.

(** ["sep".join(l)]. *)
Fixpoint join (sep : string) (l : list string) : string :=
  match l with
  | [] => EmptyString
  | [x] => x
  | x :: l' => x +:+ sep +:+ join sep l'
  end.

(** Truth value of a string: [bool(s)]. *)
Definition nonempty (s : string) : bool :=
  match s with EmptyString => false | String _ _ => true end.

(** [s.split(c)] for a one-character separator. *)
Fixpoint split_on (c : ascii) (s : string) : list string :=
  match s with
  | EmptyString => [EmptyString]
  | String a s' =>
      let r := split_on c s' in
      if Ascii.eqb a c then EmptyString :: r
      else match r with
           | x :: xs => String a x :: xs
           | [] => [String a EmptyString]
           end
  end.

End PyStr.

(* ===================================================================== *)
(** ** [urllib.parse] *)
(* ===================================================================== *)

Module UrlParse.
Import PyStr.

Record ParseResult := mkParseResult {
  scheme : string;
  netloc : string;
  path : string;
  params : string;
  query : string;
  fragment : string
}.

(** [scheme_chars]: letters, digits and ["+-."]. *)
Definition scheme_char (c : ascii) : bool :=
  isalpha c || isdigit c
  || Ascii.eqb c "+" || Ascii.eqb c "-" || Ascii.eqb c ".".

(** [_WHATWG_C0_CONTROL_OR_SPACE]: the characters up to and including
    the space. *)
Definition c0_or_space (c : ascii) : bool := nat_of_ascii c <=? 32.

(** [_UNSAFE_URL_BYTES_TO_REMOVE]: tab, carriage return, line feed. *)
Definition unsafe_byte (c : ascii) : bool :=
  Ascii.eqb c "009" || Ascii.eqb c "013" || Ascii.eqb c "010".

Definition netloc_delim (c : ascii) : bool :=
  Ascii.eqb c "/" || Ascii.eqb c "?" || Ascii.eqb c "#".

(** [_splitnetloc(url, 2)] on the text after the leading ["//"]. *)
Definition _splitnetloc (rest : string) : string * string :=
  span (λ c, negb (netloc_delim c)) rest.

(** The test after which [urlsplit] raises
    [ValueError("Invalid IPv6 URL")]. *)
Definition invalid_ipv6 (nl : string) : bool :=
  (contains "[" nl && negb (contains "]" nl))
  || (contains "]" nl && negb (contains "[" nl)).

Definition split_scheme (default url : string) : string * string :=
  match cut ":" url with
  | Some (String a pre, rest) =>
      if isalpha a && forallb scheme_char (String a pre)
      then (lower (String a pre), rest)
      else (default, url)
  | _ => (default, url)
  end.

(** The network-location step of [urlsplit]: taken when the text
    starts with ["//"]; [None] is the [ValueError] raised on unbalanced
    square brackets. *)
Definition split_netloc (url : string) : option (string * string) :=
  match drop_prefix "//" url with
  | Some rest =>
      let '(nl, rest') := _splitnetloc rest in
      if invalid_ipv6 nl then None else Some (nl, rest')
  | None => Some (EmptyString, url)
  end.

(** [url.split(c, 1)] when [c in url], and [(url, "")] otherwise. *)
Definition split_at (c : ascii) (url : string) : string * string :=
  match cut c url with
  | Some (u, f) => (u, f)
  | None => (url, EmptyString)
  end.

(** The first lines of [urlsplit]: leading control characters and
    spaces are stripped, tabs and line breaks removed. *)
Definition sanitize (url : string) : string :=
  remove unsafe_byte (lstrip c0_or_space url).

(** [urlsplit(url, scheme)], returning
    [(scheme, netloc, path, query, fragment)]; [None] is the
    [ValueError] raised on a network location with unbalanced square
    brackets.  The further validation of a bracketed host and of a
    non-ASCII network location, which raise the same error and depend on
    the network location only, is not modelled. *)
Definition urlsplit (url default : string)
  : option (string * string * string * string * string) :=
  let url := sanitize url in
  let default :=
    remove unsafe_byte (rstrip c0_or_space (lstrip c0_or_space default)) in
  let '(sch, url) := split_scheme default url in
  '(nl, url) ← split_netloc url;
  let '(url, frag) := split_at "#" url in
  let '(url, qry) := split_at "?" url in
  Some (sch, nl, url, qry, frag).

Definition uses_params : list string :=
  [""; "ftp"; "hdl"; "prospero"; "http"; "imap"; "https"; "shttp"; "rtsp";
   "rtspu"; "sip"; "sips"; "mms"; "sftp"; "tel"].

Definition uses_relative : list string :=
  [""; "ftp"; "http"; "gopher"; "nntp"; "imap"; "wais"; "file"; "https";
   "shttp"; "mms"; "prospero"; "rtsp"; "rtspu"; "sftp"; "svn";
   "svn+ssh"; "ws"; "wss"].

Definition uses_netloc : list string :=
  [""; "ftp"; "http"; "gopher"; "nntp"; "telnet"; "imap"; "wais"; "file";
   "mms"; "https"; "shttp"; "snews"; "prospero"; "rtsp"; "rtspu";
   "rsync"; "svn"; "svn+ssh"; "sftp"; "nfs"; "git"; "git+ssh"; "ws"; "wss"].

Definition mem (s : string) (l : list string) : bool :=
  existsb (String.eqb s) l.

(** [_splitparams(url)], called when [';' in url]. *)
Definition _splitparams (url : string) : string * string :=
  let '(dir, last) := rcut_keep "/" url in
  match cut ";" last with
  | Some (a, b) => (dir +:+ a, b)
  | None => (url, EmptyString)
  end.

(** The parameter step of [urlparse]:
    [if scheme in uses_params and ';' in url: url, params = _splitparams(url)]
    [else: params = '']. *)
Definition split_params (sch url : string) : string * string :=
  if mem sch uses_params && contains ";" url
  then _splitparams url else (url, EmptyString).

(** [urlparse(url, scheme)]. *)
Definition urlparse (url default : string) : option ParseResult :=
  '(sch, nl, url, qry, frag) ← urlsplit url default;
  let '(url, prm) := split_params sch url in
  Some (mkParseResult sch nl url prm qry frag).

(** [urlunsplit((scheme, netloc, url, query, fragment))]. *)
Definition urlunsplit (sch nl url qry frag : string) : string :=
  let url :=
    if nonempty nl
       || (nonempty sch && mem sch uses_netloc && negb (startswith url "//"))
    then
      let url :=
        if nonempty url && negb (startswith url "/") then "/" +:+ url else url in
      "//" +:+ nl +:+ url
    else url in
  let url := if nonempty sch then sch +:+ ":" +:+ url else url in
  let url := if nonempty qry then url +:+ "?" +:+ qry else url in
  if nonempty frag then url +:+ "#" +:+ frag else url.

(** [urlunparse((scheme, netloc, url, params, query, fragment))]. *)
Definition urlunparse (sch nl url prm qry frag : string) : string :=
  let url := if nonempty prm then url +:+ ";" +:+ prm else url in
  urlunsplit sch nl url qry frag.

(** [segments[1:-1] = filter(None, segments[1:-1])]: the empty segments
    strictly between the first and the last are dropped. *)
Definition filter_inner (segments : list string) : list string :=
  match segments with
  | [] => []
  | first :: rest =>
      match reverse rest with
      | [] => [first]
      | last_seg :: rmid =>
          first :: List.filter nonempty (reverse rmid) ++ [last_seg]
      end
  end.

(** The loop of [urljoin] that resolves ["."] and [".."] segments. *)
Definition resolve_segments (segments : list string) : list string :=
  fold_left
    (λ resolved seg,
       if String.eqb seg ".." then removelast resolved
       else if String.eqb seg "." then resolved
       else resolved ++ [seg])
    segments [].

(** [urljoin(base, url)]; [None] when parsing [base] or [url] raises
    [ValueError]. *)
Definition urljoin (base url : string) : option string :=
  if negb (nonempty base) then Some url
  else if negb (nonempty url) then Some base
  else
    b ← urlparse base "";
    u ← urlparse url (scheme b);
    if negb (String.eqb (scheme u) (scheme b)) || negb (mem (scheme u) uses_relative)
    then Some url
    else if mem (scheme u) uses_netloc && nonempty (netloc u)
    then Some (urlunparse (scheme u) (netloc u) (path u) (params u)
                 (query u) (fragment u))
    else
      let nl := if mem (scheme u) uses_netloc then netloc b else netloc u in
      if negb (nonempty (path u)) && negb (nonempty (params u))
      then
        let qry := if nonempty (query u) then query u else query b in
        Some (urlunparse (scheme u) nl (path b) (params b) qry (fragment u))
      else
        let base_parts := split_on "/" (path b) in
        let base_parts :=
          if nonempty (List.last base_parts EmptyString)
          then removelast base_parts else base_parts in
        let segments :=
          if startswith (path u) "/" then split_on "/" (path u)
          else filter_inner (base_parts ++ split_on "/" (path u)) in
        let resolved := resolve_segments segments in
        let last_seg := List.last segments EmptyString in
        let resolved :=
          if String.eqb last_seg "." || String.eqb last_seg ".."
          then resolved ++ [EmptyString] else resolved in
        let joined := join "/" resolved in
        Some (urlunparse (scheme u) nl
                (if nonempty joined then joined else "/")
                (params u) (query u) (fragment u)).

(** Characters that [sanitize] keeps, and characters of a network
    location. *)
Definition safe (c : ascii) : bool := negb (unsafe_byte c).
Definition host_char (c : ascii) : bool := negb (netloc_delim c).

(** What [urlparse] yields as scheme, network location and path of a
    URL with a scheme: a lower-case scheme, a network location without
    ['/'], ['?'] and ['#'], a path without ['?'] and ['#'] and without
    parameters on its last segment, no tab or line break anywhere; after
    a network location the path is empty or starts with a slash. *)
Definition clean_parts (s n p : string) : Prop :=
  match s with String a _ => isalpha a = true | EmptyString => False end ∧
  forallb scheme_char s = true ∧ lower s = s ∧
  forallb host_char n = true ∧ forallb safe n = true ∧
  forallb safe p = true ∧
  contains "#" p = false ∧ contains "?" p = false ∧
  split_params s p = (p, EmptyString) ∧
  (n ≠ EmptyString →
   invalid_ipv6 n = false ∧
   match p with String a _ => a = "/"%char | EmptyString => True end).

End UrlParse.

(* ===================================================================== *)
(** ** BeautifulSoup documents *)
(* ===================================================================== *)

Module Bs4.
Import PyStr.

(** A parsed document.  [NavigableString] is text that [get_text]
    collects; [Comment] stands for the strings it skips (comments,
    declarations).  The attributes of a [Tag] are a Python [dict]. *)
#[warnings="-register-all"]
Inductive node :=
| NavigableString (text : string)
| Comment (text : string)
| Tag (name : string) (attrs : gmap string string) (contents : list node).

(** The position of a descendant: the child indices from the root. *)
Definition position := list nat.

(** [n.descendants]: every node below [n] in document order, with its
    position. *)
Fixpoint walk (n : node) : list (position * node) :=
  match n with
  | Tag _ _ cs =>
      (fix go (i : nat) (cs : list node) {struct cs} : list (position * node) :=
         match cs with
         | [] => []
         | c :: cs' =>
             ([i], c) :: ((λ pd, (i :: pd.1, pd.2)) <$> walk c) ++ go (S i) cs'
         end) 0 cs
  | _ => []
  end.

Fixpoint get (p : position) (n : node) : option node :=
  match p with
  | [] => Some n
  | i :: p' =>
      match n with
      | Tag _ _ cs => c ← cs !! i; get p' c
      | _ => None
      end
  end.

(** In-place modification of the node at position [p]. *)
Fixpoint update (p : position) (f : node → node) (n : node) : node :=
  match p with
  | [] => f n
  | i :: p' =>
      match n with
      | Tag nm ats cs => Tag nm ats (alter (update p' f) i cs)
      | _ => n
      end
  end.

(** The simple CSS selectors the scrapers use: [name], [.class], [#id],
    [[attr="value"]]. *)
Inductive selector :=
| SelTag (name : string)
| SelClass (class : string)
| SelId (id : string)
| SelAttr (key value : string).

Definition get_attr (key : string) (n : node) : option string :=
  match n with
  | Tag _ ats _ => ats !! key
  | _ => None
  end.

Definition tag_named (nm : string) (n : node) : bool :=
  match n with
  | Tag nm' _ _ => String.eqb nm' nm
  | _ => false
  end.

Definition matches (sel : selector) (n : node) : bool :=
  match n with
  | Tag _ _ _ =>
      match sel with
      | SelTag nm => tag_named nm n
      | SelClass c =>
          match get_attr "class" n with
          | Some v => existsb (String.eqb c) (split v)
          | None => false
          end
      | SelId i => bool_decide (get_attr "id" n = Some i)
      | SelAttr k v => bool_decide (get_attr k n = Some v)
      end
  | _ => false
  end.

(** A selector group ["a, b, c"] matches when one of its members does. *)
Definition matches_any (group : list selector) (n : node) : bool :=
  existsb (λ sel, matches sel n) group.

(** [n.select(group)]: the matching descendants in document order. *)
Definition select (group : list selector) (n : node) : list (position * node) :=
  List.filter (λ pd, matches_any group pd.2) (walk n).

(** [n.select_one(group)]. *)
Definition select_one (group : list selector) (n : node)
  : option (position * node) :=
  head (select group n).

(** [n.find_all(name)] and [n.find(name)]. *)
Definition find_all (nm : string) (n : node) : list (position * node) :=
  List.filter (λ pd, tag_named nm pd.2) (walk n).

Definition find (nm : string) (n : node) : option (position * node) :=
  head (find_all nm n).

(** The strings [get_text(strip=True)] collects: every text node below
    [n], stripped, the empty ones left out. *)
Definition stripped_strings (n : node) : list string :=
  omap (λ pd : position * node,
          match pd.2 with
          | NavigableString s =>
              let s' := strip s in if nonempty s' then Some s' else None
          | _ => None
          end) (walk n).

(** [n.get_text(separator=sep, strip=True)]. *)
Definition get_text (sep : string) (n : node) : string :=
  join sep (stripped_strings n).

(** [for e in n.select(group): e.decompose()]: every matching descendant
    is removed with its subtree; [n] itself stays. *)
Fixpoint decompose_all (group : list selector) (n : node) : node :=
  match n with
  | Tag nm ats cs =>
      Tag nm ats
        ((fix go (cs : list node) : list node :=
            match cs with
            | [] => []
            | c :: cs' =>
                if matches_any group c then go cs'
                else decompose_all group c :: go cs'
            end) cs)
  | _ => n
  end.

(** The document object that holds the top-level nodes. *)
Definition document (cs : list node) : node := Tag "[document]" ∅ cs.

End Bs4.

(* ===================================================================== *)
(** ** [ninjatrader_docs_scraper.py] *)
(* ===================================================================== *)

Module DocsScraper.
Import PyStr UrlParse Bs4.

(** What the scraper consumes from outside the repository. *)
Record World := mkWorld {
  (** [requests.get(url, ...)], [raise_for_status()], [response.text]:
      the body, or [None] when one of them raises. *)
  requests_get : string → option string;
  (** [BeautifulSoup(html, 'html.parser')]. *)
  html_parser : string → node;
  (** [self.h2t.handle(str(content))]. *)
  h2t_handle : node → string
}.

(** The instance fields and the files written. *)
Record state := mkState {
  visited_urls : gset string;
  files : gmap string string;
  (** the URLs that [scrape_recursive] has processed, in order: those
      that it passes to [get_page_content] itself *)
  fetched : list string
}.

(** A call either returns or lets a [ValueError] of [urllib.parse]
    escape; the fields keep what was written before. *)
Inductive outcome :=
| Returned (st : state)
| Raised (st : state).

Definition final (o : outcome) : state :=
  match o with Returned st | Raised st => st end.

Definition domain : string := "https://developer.ninjatrader.com".
Definition default_base_url : string :=
  "https://developer.ninjatrader.com/docs/desktop".

(** [__init__]. *)
Definition init : state := mkState ∅ ∅ [].

(** [clean_url]: "Remove fragments and normalize URL". *)
Definition clean_url (url : string) : option string :=
  parsed ← urlparse url "";
  Some (scheme parsed +:+ "://" +:+ netloc parsed +:+ path parsed).

(** [get_page_content]: the exception handler turns every failure into
    [None]. *)
Definition get_page_content (W : World) (url : string) : option string :=
  requests_get W url.

Definition content_selectors : list selector :=
  [SelTag "main"; SelTag "article"; SelClass "content"; SelClass "main";
   SelClass "documentation"; SelClass "doc-content"; SelId "content";
   SelAttr "role" "main"].

(** The lines [extract_content] prints about its strategies. *)
Inductive event :=
| FoundSelector (sel : selector)
| UsingLargestTextBlock
| UsingBodyWithoutNav
| NoContentFound
| MinimalContent (chars : nat).

(** The element chosen as content: a node of the parsed page, or a node
    of the copy made by [get_body_without_nav]. *)
Inductive handle :=
| InSoup (p : position)
| Detached (n : node).

(** Strategy 1, the loop over [content_selectors]: the first selector
    that matches an element wins.  A [Tag] is always true in a condition,
    so [if found and isinstance(found, Tag)] tests that an element was
    found. *)
Fixpoint first_selector (sels : list selector) (soup : node)
  : option (selector * position) :=
  match sels with
  | [] => None
  | sel :: sels' =>
      match select_one [sel] soup with
      | Some (p, _) => Some (sel, p)
      | None => first_selector sels' soup
      end
  end.

(** [find_largest_text_block]. *)
Definition find_largest_text_block (soup : node) : option position :=
  (fold_left
     (λ (acc : nat * option position) (pd : position * node),
        let text_length := String.length (get_text "" pd.2) in
        if acc.1 <? text_length then (text_length, Some pd.1) else acc)
     (find_all "div" soup) (0, None)).2.

Definition nav_selectors : list selector :=
  [SelTag "nav"; SelClass "nav"; SelClass "navigation"; SelTag "header";
   SelTag "footer"].

(** [get_body_without_nav]: the body is copied
    ([BeautifulSoup(str(body), 'html.parser')]) and the copy stripped. *)
Definition get_body_without_nav (soup : node) : option node :=
  match find "body" soup with
  | Some (_, body) =>
      let body_copy := document [body] in
      match find "body" body_copy with
      | Some (_, body_elem) => Some (decompose_all nav_selectors body_elem)
      | None => None
      end
  | None => None
  end.

Definition unwanted_selectors : list selector :=
  [SelTag "nav"; SelTag "header"; SelTag "footer"; SelClass "nav";
   SelClass "navigation"; SelClass "sidebar"; SelTag "script";
   SelTag "style"; SelClass "header"; SelClass "footer"].

(** Lines 46-85: the choice of the content element. *)
Definition choose_content (soup : node) : list event * option handle :=
  match first_selector content_selectors soup with
  | Some (sel, p) => ([FoundSelector sel], Some (InSoup p))
  | None =>
      match find_largest_text_block soup with
      | Some p => ([UsingLargestTextBlock], Some (InSoup p))
      | None =>
          match get_body_without_nav soup with
          | Some n => ([UsingBodyWithoutNav], Some (Detached n))
          | None =>
              ([NoContentFound],
               match find "body" soup with
               | Some (p, _) => Some (InSoup p)
               | None => None
               end)
          end
      end
  end.

(** The removal of unwanted elements below the content element; an
    element of the page is modified in the page. *)
Definition strip_unwanted (soup : node) (c : handle) : node * option node :=
  match c with
  | InSoup p =>
      let soup' := update p (decompose_all unwanted_selectors) soup in
      (soup', get p soup')
  | Detached n => (soup, Some (decompose_all unwanted_selectors n))
  end.

Definition nl : string := String "010" EmptyString.

(** [extract_content], with the lines it prints. *)
Definition extract_content (W : World) (html url : string)
  : list event * string :=
  let soup := html_parser W html in
  let '(log, content) := choose_content soup in
  match content with
  | Some c =>
      match strip_unwanted soup c with
      | (soup, Some content) =>
          let text_content := get_text nl content in
          if 100 <? String.length text_content then
            let markdown := h2t_handle W content in
            let title_text :=
              match find "title" soup with
              | Some (_, title_elem) => get_text "" title_elem
              | None => "Untitled"
              end in
            (log,
             nl +:+ nl +:+ "# " +:+ title_text +:+ nl +:+ nl
             +:+ "**Source:** " +:+ url +:+ nl +:+ nl
             +:+ markdown +:+ nl +:+ nl +:+ "---" +:+ nl +:+ nl)
          else (log ++ [MinimalContent (String.length text_content)], "")
      | (_, None) => (log, "")
      end
  | None => (log, "")
  end.

Definition excluded_extensions : list string :=
  [".pdf"; ".zip"; ".exe"; ".dmg"; ".png"; ".jpg"; ".gif"].

(** The filter of [find_documentation_links] on an absolute, cleaned
    URL. *)
Definition accepts (visited : gset string) (absolute_url : string) : bool :=
  startswith absolute_url domain && isin "/docs/" absolute_url
  && negb (existsb (endswith absolute_url) excluded_extensions)
  && bool_decide (absolute_url ∉ visited).

(** The [href] values of [soup.find_all('a', href=True)] that are true. *)
Definition hrefs (soup : node) : list string :=
  omap (λ pd : position * node,
          match get_attr "href" pd.2 with
          | Some href => if nonempty href then Some href else None
          | None => None
          end) (find_all "a" soup).

(** Lines 155-158: a link target is resolved against the page it is on
    ([urljoin]) and then cleaned; [None] when one of the two raises. *)
Definition normalize (raw_url base_url : string) : option string :=
  absolute_url ← urljoin base_url raw_url;
  clean_url absolute_url.

(** The loop of [find_documentation_links]; [None] when [urljoin] or
    [clean_url] raises. *)
Fixpoint collect_links (visited : gset string) (current_url : string)
    (hs : list string) (links : gset string) : option (gset string) :=
  match hs with
  | [] => Some links
  | href :: hs' =>
      absolute_url ← normalize href current_url;
      collect_links visited current_url hs'
        (if accepts visited absolute_url then {[absolute_url]} ∪ links
         else links)
  end.

(** [find_documentation_links]. *)
Definition find_documentation_links (W : World) (visited : gset string)
    (html current_url : string) : option (gset string) :=
  collect_links visited current_url (hrefs (html_parser W html)) ∅.

(** [sorted(links)]. *)
Definition sorted (links : gset string) : list string :=
  merge_sort String.le (elements links).

(** A [for] loop whose body may raise. *)
Fixpoint for_each {A} (body : A → state → outcome) (l : list A) (st : state)
  : outcome :=
  match l with
  | [] => Returned st
  | x :: l' =>
      match body x st with
      | Returned st' => for_each body l' st'
      | Raised st' => Raised st'
      end
  end.

(** [with open(output_file, 'a') as f: f.write(content)]. *)
Definition append_file (name content : string) (fs : gmap string string)
  : gmap string string :=
  <[name := default EmptyString (fs !! name) +:+ content]> fs.

(** [scrape_recursive] with [levels = max_depth + 1 - current_depth]
    levels left: no level is left exactly when
    [current_depth > max_depth], and the recursive call at
    [current_depth + 1] has one level less.  [analyze_page_structure],
    called for the first URL of a scraper that has visited nothing,
    fetches that page once more and prints its structure; it changes no
    field, and [fetched] does not list its request.  The requests of a
    crawl, that one included, are those of [DocsRequests.scrape_levels].
    [time.sleep] is left out. *)
Fixpoint scrape_levels (W : World) (levels : nat) (url output_file : string)
    (st : state) : outcome :=
  match levels with
  | O => Returned st
  | S levels' =>
      match clean_url url with
      | None => Raised st
      | Some clean =>
          if bool_decide (clean ∈ visited_urls st) then Returned st
          else
            let st := mkState ({[clean]} ∪ visited_urls st) (files st)
                        (fetched st ++ [clean]) in
            match get_page_content W clean with
            | Some html =>
                if negb (nonempty html) then Returned st
                else
                  let content := (extract_content W html clean).2 in
                  let st :=
                    if nonempty content && (200 <? String.length content)
                    then mkState (visited_urls st)
                           (append_file output_file content (files st))
                           (fetched st)
                    else st in
                  match find_documentation_links W (visited_urls st)
                          html clean with
                  | Some links =>
                      for_each
                        (λ link st, scrape_levels W levels' link output_file st)
                        (sorted links) st
                  | None => Raised st
                  end
            | None => Returned st
            end
      end
  end.

(** [scrape_recursive(url, output_file, max_depth, current_depth)]. *)
Definition scrape_recursive (W : World) (url output_file : string)
    (max_depth current_depth : Z) (st : state) : outcome :=
  scrape_levels W (Z.to_nat (max_depth + 1 - current_depth)) url output_file st.

(** [scrape_all] on an instance with base URL [base_url]. *)
Definition scrape_all (W : World) (base_url output_file : string)
    (st : state) : outcome :=
  let header :=
    "# NinjaTrader Desktop SDK Documentation" +:+ nl +:+ nl
    +:+ "Scraped from: " +:+ base_url +:+ nl +:+ nl
    +:+ "---" +:+ nl +:+ nl in
  let st := mkState (visited_urls st) (<[output_file := header]> (files st))
              (fetched st) in
  scrape_recursive W base_url output_file 5 0 st.

(** On a scraper used for one crawl, the URLs processed are pairwise
    distinct and are exactly the visited ones. *)
Definition fetched_once (st : state) : Prop :=
  NoDup (fetched st) ∧ ∀ x, x ∈ fetched st ↔ x ∈ visited_urls st.

End DocsScraper.

(* ===================================================================== *)
(** ** Python values written as JSON *)
(* ===================================================================== *)

Module PyValue.

(** The values the scrapers hand to [json.dump]: strings, lists and
    dictionaries.  A [dict] keeps its keys in insertion order, and
    [json.dump] writes them in that order. *)
#[warnings="-register-all"]
Inductive value :=
| VStr (s : string)
| VList (items : list value)
| VDict (items : list (string * value)).

(** [d[key]]. *)
Definition dict_get (key : string) (d : value) : option value :=
  match d with
  | VDict items => snd <$> List.find (λ kv, String.eqb kv.1 key) items
  | _ => None
  end.

(** [list(d.keys())]. *)
Definition keys (d : value) : list string :=
  match d with
  | VDict items => fst <$> items
  | _ => []
  end.

(** [len(v)] of a string value. *)
Definition str_len (v : option value) : nat :=
  match v with
  | Some (VStr s) => String.length s
  | _ => 0
  end.

End PyValue.

(* ===================================================================== *)
(** ** [ninjatrader-selenium-scraper.py] *)
(* ===================================================================== *)

Module SeleniumScraper.
Import PyStr UrlParse PyValue.

(** The page the browser shows, as the scraper reads it. *)
Record page := mkPage {
  (** [driver.title] *)
  title : string;
  (** [driver.current_url] *)
  current_url : string;
  (** [find_elements(By.CSS_SELECTOR, selector)]: the [.text] of the
      elements found, [None] when the lookup raises *)
  find_elements : string → option (list string);
  (** [find_element(By.TAG_NAME, "body").text], [None] when it raises *)
  body_text : option string;
  (** [find_elements(By.TAG_NAME, "a")]: the [href] attribute of each
      link, [None] when the lookup raises *)
  link_hrefs : option (list (option string))
}.

(** What [driver.get(url)] does: the page loads, or the call raises and
    the browser shows what it had loaded by then ([None]: it stays on the
    page it was on). *)
Inductive load :=
| Loaded (p : page)
| LoadError (shown : option page).

Record World := mkWorld {
  driver_get : string → load;
  (** [time.strftime("%Y-%m-%d %H:%M:%S")] after so many seconds *)
  strftime : nat → string;
  (** whether [webdriver.Chrome(...)] starts *)
  chrome_starts : bool
}.

(** The instance fields. *)
Record state := mkState {
  visited_urls : gset string;
  failed_urls : gset string;
  content_data : list value;
  (** the page shown by [self.driver]; [None] before [start_driver] *)
  driver : option page;
  (** seconds spent in [time.sleep] *)
  clock : nat;
  (** the URLs passed to [extract_page_content], in order (its
      [Extracting content from: ...] lines) *)
  extracted : list string
}.

Definition base_url : string := "https://developer.ninjatrader.com/docs/desktop".

(** [__init__]. *)
Definition init : state := mkState ∅ ∅ [] None 0 [].

Definition blank_page : page :=
  mkPage "" "data:," (λ _, Some []) (Some "") (Some []).

(** [start_driver]: a browser on a blank page, or the exception of
    [webdriver.Chrome] re-raised ([None]). *)
Definition start_driver (W : World) (st : state) : option state :=
  if chrome_starts W
  then Some (mkState (visited_urls st) (failed_urls st) (content_data st)
               (Some blank_page) (clock st) (extracted st))
  else None.

Definition content_selectors : list string :=
  ["main"; "article"; ".documentation"; ".content"; "[role='main']";
   ".doc-content"; "#content"; ".main-content"].

(** Strategy 1: the longest stripped text among the elements of all
    content selectors. *)
Definition longest_selector_text (p : page) : string :=
  fold_left
    (λ content_text selector,
       match find_elements p selector with
       | Some texts =>
           fold_left
             (λ content_text text,
                let text := strip text in
                if String.length content_text <? String.length text
                then text else content_text)
             texts content_text
       | None => content_text
       end)
    content_selectors EmptyString.

(** The fallback: the body text with every word of the navigation
    elements removed. *)
Definition body_minus_navigation (p : page) (content_text : string) : string :=
  if String.length content_text <? 100 then
    match body_text p,
          find_elements p "nav, header, footer, .nav, .navigation" with
    | Some body, Some nav_texts =>
        fold_left (λ content_text nav, erase nav content_text)
          (split (join " " nav_texts)) body
    | _, _ => content_text
    end
  else content_text.

Definition extract_code_examples (p : page) : list value :=
  match find_elements p "pre, code, .code-block" with
  | Some texts =>
      omap (λ text,
              let code_text := strip text in
              if nonempty code_text && (10 <? String.length code_text)
              then Some (VStr code_text) else None) texts
  | None => []
  end.

Definition set_driver (p : page) (st : state) : state :=
  mkState (visited_urls st) (failed_urls st) (content_data st) (Some p)
    (clock st) (extracted st).

Definition sleep (seconds : nat) (st : state) : state :=
  mkState (visited_urls st) (failed_urls st) (content_data st) (driver st)
    (clock st + seconds) (extracted st).

(** [extract_page_content]; [wait_for_content], whose result only
    selects a warning, is left out. *)
Definition extract_page_content (W : World) (url : string) (st : state)
  : state * option value :=
  match driver st with
  | None => (st, None)
  | Some shown =>
      let st := mkState (visited_urls st) (failed_urls st) (content_data st)
                  (driver st) (clock st) (extracted st ++ [url]) in
      match driver_get W url with
      | LoadError now_shown =>
          (mkState (visited_urls st) ({[url]} ∪ failed_urls st)
             (content_data st) (Some (default shown now_shown)) (clock st)
             (extracted st),
           None)
      | Loaded p =>
          let st := sleep 2 (set_driver p st) in
          let content_text :=
            body_minus_navigation p (longest_selector_text p) in
          let code_examples := extract_code_examples p in
          if 100 <? String.length content_text then
            (st,
             Some (VDict [("url", VStr url);
                          ("title", VStr (title p));
                          ("content", VStr content_text);
                          ("code_examples", VList code_examples);
                          ("scraped_at", VStr (strftime W (clock st)))]))
          else (st, None)
      end
  end.

Definition excluded_extensions : list string :=
  [".pdf"; ".zip"; ".exe"; ".png"; ".jpg"].

(** The filter of [find_documentation_links]. *)
Definition accepts (visited : gset string) (absolute_url : string) : bool :=
  isin "developer.ninjatrader.com/docs" absolute_url
  && negb (existsb (endswith absolute_url) excluded_extensions)
  && bool_decide (absolute_url ∉ visited).

(** The loop of [find_documentation_links] over the links of the page
    [p] that the browser shows; a link whose [href] is missing or empty,
    or on which [urljoin] raises, is skipped. *)
Definition links_of_page (visited : gset string) (p : page) : gset string :=
  match link_hrefs p with
  | None => ∅
  | Some attrs =>
      fold_left
        (λ (links : gset string) (attr : option string),
           match attr with
           | Some href =>
               if nonempty href then
                 match urljoin (current_url p) href with
                 | Some absolute_url =>
                     if accepts visited absolute_url
                     then {[absolute_url]} ∪ links else links
                 | None => links
                 end
               else links
           | None => links
           end)
        attrs ∅
  end.

(** [find_documentation_links]. *)
Definition find_documentation_links (st : state) : gset string :=
  match driver st with
  | None => ∅
  | Some p => links_of_page (visited_urls st) p
  end.

(** The body of the [while] loop of [scrape_site] once
    [urls_to_visit.pop()] has returned [url]: the states after
    [visited_urls.add(url)], after [extract_page_content(url)], and at
    the end of the iteration. *)
Definition after_add (url : string) (st : state) : state :=
  mkState ({[url]} ∪ visited_urls st) (failed_urls st) (content_data st)
    (driver st) (clock st) (extracted st).

Definition after_extract (W : World) (url : string) (st : state) : state :=
  let '(st', content) := extract_page_content W url (after_add url st) in
  match content with
  | Some c =>
      mkState (visited_urls st') (failed_urls st') (content_data st' ++ [c])
        (driver st') (clock st') (extracted st')
  | None => st'
  end.

Definition iteration (W : World) (url : string)
    (cfg : gset string * state) : gset string * state :=
  let '(urls_to_visit, st) := cfg in
  let urls_to_visit := urls_to_visit ∖ {[url]} in
  if bool_decide (url ∈ visited_urls st) then (urls_to_visit, st)
  else
    let st := after_extract W url st in
    let new_links := find_documentation_links st in
    (urls_to_visit ∪ (new_links ∖ visited_urls st), sleep 1 st).

(** The loop condition
    [urls_to_visit and len(self.visited_urls) < max_pages]. *)
Definition continues (max_pages : Z) (cfg : gset string * state) : Prop :=
  cfg.1 ≠ ∅ ∧ (Z.of_nat (size (visited_urls cfg.2)) < max_pages)%Z.

(** One iteration; [pop()] returns an arbitrary element of the set. *)
Inductive step (W : World) (max_pages : Z)
  : gset string * state → gset string * state → Prop :=
| step_pop cfg url :
    continues max_pages cfg → url ∈ cfg.1 →
    step W max_pages cfg (iteration W url cfg).

(** The [while] loop, run to its end. *)
Inductive loop (W : World) (max_pages : Z)
  : gset string * state → state → Prop :=
| loop_exit cfg :
    ¬ continues max_pages cfg → loop W max_pages cfg cfg.2
| loop_iter cfg cfg' st' :
    step W max_pages cfg cfg' → loop W max_pages cfg' st' →
    loop W max_pages cfg st'.

(** [scrape_site(max_pages)] from fields [st] to fields [st'], when the
    browser starts; [close_driver] changes no field. *)
Definition scrape_site (W : World) (max_pages : Z) (st st' : state) : Prop :=
  ∃ st0, start_driver W st = Some st0 ∧ loop W max_pages ({[base_url]}, st0) st'.

(** The loop with [pop()] resolved by [choose], for at most [fuel]
    iterations. *)
Fixpoint run (W : World) (choose : gset string → option string)
    (max_pages : Z) (fuel : nat) (cfg : gset string * state)
  : gset string * state :=
  match fuel with
  | O => cfg
  | S fuel' =>
      if bool_decide (Z.of_nat (size (visited_urls cfg.2)) < max_pages)%Z then
        match choose cfg.1 with
        | Some url => run W choose max_pages fuel' (iteration W url cfg)
        | None => cfg
        end
      else cfg
  end.

(** [save_results]: the value written to [ninjatrader_docs.json] by
    [json.dump(self.content_data, ...)]. *)
Definition save_results_json (st : state) : value :=
  VList (content_data st).


(** The invariant of claim C10: every failed URL is a visited URL. *)
Definition failed_visited (st : state) : Prop :=
  failed_urls st ⊆ visited_urls st.

(** On a scraper used for one crawl: the browser is started, the URLs
    passed to [extract_page_content] are pairwise distinct and are exactly
    the visited ones, and no more than [max_pages] are visited. *)
Definition processed_once (max_pages : Z) (st : state) : Prop :=
  is_Some (driver st) ∧
  NoDup (extracted st) ∧
  (∀ x, x ∈ extracted st ↔ x ∈ visited_urls st) ∧
  (Z.of_nat (size (visited_urls st)) ≤ max_pages)%Z.

(** The keys of the dictionary literal in [extract_page_content]. *)
Definition record_keys : list string :=
  ["url"; "title"; "content"; "code_examples"; "scraped_at"].

End SeleniumScraper.

(* ===================================================================== *)
(** ** [ninjatrader_api_scraper.py] *)
(* ===================================================================== *)

Module ApiScraper.
Import PyStr UrlParse Bs4 PyValue.

Record World := mkWorld {
  (** [self.session.get(url, timeout=10)]: the status code and the text
      of the response, [None] when the call raises *)
  session_get : string → option (nat * string);
  (** [BeautifulSoup(text, 'html.parser')] *)
  html_parser : string → node;
  (** [[u.get_text() for u in BeautifulSoup(text, 'xml').find_all('loc')]] *)
  sitemap_locs : string → list string
}.

Definition base_url : string := "https://developer.ninjatrader.com".

Definition selectors : list selector :=
  [SelTag "main"; SelAttr "role" "main"; SelId "main-content";
   SelClass "main-content"; SelClass "content"; SelClass "documentation";
   SelTag "article"; SelClass "doc-content"; SelClass "api-content"].

Definition nav_selectors : list selector :=
  [SelTag "nav"; SelTag "header"; SelTag "footer"; SelClass "nav";
   SelClass "navigation"; SelClass "header"; SelClass "footer"].

(** Strategies 1 and 2 of [extract_documentation_content]: the first
    selector that matches an element, else the body. *)
Fixpoint first_selector (sels : list selector) (soup : node)
  : option position :=
  match sels with
  | [] => None
  | sel :: sels' =>
      match select_one [sel] soup with
      | Some (p, _) => Some p
      | None => first_selector sels' soup
      end
  end.

Definition choose_content (soup : node) : option position :=
  match first_selector selectors soup with
  | Some p => Some p
  | None => fst <$> find "body" soup
  end.

(** [content.find_all(['pre', 'code'])]. *)
Definition code_blocks (content : node) : list value :=
  (λ pd : position * node, VStr (get_text "" pd.2))
    <$> List.filter (λ pd, tag_named "pre" pd.2 || tag_named "code" pd.2)
          (walk content).

(** [extract_documentation_content]: the new [visited] set and the
    dictionary returned. *)
Definition extract_documentation_content (W : World) (url : string)
    (visited : gset string) : gset string * option value :=
  if bool_decide (url ∈ visited) then (visited, None)
  else
    let visited := {[url]} ∪ visited in
    match session_get W url with
    | None => (visited, None)
    | Some (_, text) =>
        let soup :=
          decompose_all [SelTag "script"; SelTag "style"] (html_parser W text) in
        match choose_content soup with
        | Some p =>
            let soup := update p (decompose_all nav_selectors) soup in
            match get p soup with
            | Some content =>
                let text := get_text DocsScraper.nl content in
                let title :=
                  match find "title" soup with
                  | Some (_, title_elem) => get_text "" title_elem
                  | None => "Untitled"
                  end in
                (visited,
                 Some (VDict [("url", VStr url);
                              ("title", VStr title);
                              ("text", VStr text);
                              ("code_examples", VList (code_blocks content))]))
            | None => (visited, None)
            end
        | None => (visited, None)
        end
    end.

(** [scrape_from_sitemap]. *)
Definition scrape_from_sitemap (W : World) : list string :=
  (fix go (paths : list string) : list string :=
     match paths with
     | [] => []
     | sitemap_path :: paths' =>
         match session_get W (base_url +:+ sitemap_path) with
         | Some (200, text) =>
             List.filter (isin "/docs/") (sitemap_locs W text)
         | _ => go paths'
         end
     end) ["/sitemap.xml"; "/sitemap_index.xml"; "/docs/sitemap.xml"].

(** The loop of [save_documentation] over [doc_urls[:50]]. *)
Fixpoint collect_docs (W : World) (urls : list string) (visited : gset string)
    (all_docs : list value) : gset string * list value :=
  match urls with
  | [] => (visited, all_docs)
  | url :: urls' =>
      if isin "/docs/desktop" url then
        let '(visited, content) := extract_documentation_content W url visited in
        collect_docs W urls' visited
          (match content with
           | Some c =>
               if 100 <? str_len (dict_get "text" c) then all_docs ++ [c]
               else all_docs
           | None => all_docs
           end)
      else collect_docs W urls' visited all_docs
  end.

(** [save_documentation]: the new [visited] set and the value written by
    [json.dump(all_docs, ...)]; [get_api_endpoints] only prints. *)
Definition save_documentation (W : World) (visited : gset string)
  : gset string * value :=
  let doc_urls := scrape_from_sitemap W in
  let '(visited, all_docs) := collect_docs W (take 50 doc_urls) visited [] in
  (visited, VList all_docs).

(** The keys of the dictionary literal in
    [extract_documentation_content]. *)
Definition record_keys : list string :=
  ["url"; "title"; "text"; "code_examples"].

End ApiScraper.

(* ===================================================================== *)
(** ** One invocation of a crawl *)
(* ===================================================================== *)

Module Invocation.

(** The URLs [new] are those that one invocation has processed: [log]
    and [log'] list the URLs processed before and after it, [visited] and
    [visited'] are the visited sets before and after it.  The URLs
    processed are pairwise distinct, none of them was visited before, and
    they are what the invocation has added to the visited set. *)
Definition processed (visited visited' : gset string)
    (log log' new : list string) : Prop :=
  log' = log ++ new ∧ NoDup new ∧
  (∀ x, x ∈ new → x ∉ visited) ∧
  visited' = visited ∪ list_to_set new.

End Invocation.

(* ===================================================================== *)
(** ** [ninjatrader_docs_scraper.py]: the requests of a crawl *)
(* ===================================================================== *)

Module DocsRequests.
Import PyStr UrlParse Bs4.

(** The crawl of [DocsScraper] once more, now with the log of every
    [requests.get] that it makes, in order: the requests of
    [scrape_recursive] itself and the request of
    [analyze_page_structure]. *)

(** [analyze_page_structure(url)]: the page is fetched again
    ([get_page_content]) and, when that gives a text, parsed and its
    structure printed; no field changes. *)
Definition analyze_page_structure (W : DocsScraper.World) (url : string)
    (log : list string) : list string :=
  log ++ [url].

(** A [for] loop whose body may raise. *)
Fixpoint for_each {A}
    (body : A → DocsScraper.state → list string
            → DocsScraper.outcome * list string)
    (l : list A) (st : DocsScraper.state) (log : list string)
  : DocsScraper.outcome * list string :=
  match l with
  | [] => (DocsScraper.Returned st, log)
  | x :: l' =>
      match body x st log with
      | (DocsScraper.Returned st', log') => for_each body l' st' log'
      | (DocsScraper.Raised st', log') => (DocsScraper.Raised st', log')
      end
  end.

(** [scrape_recursive] with [levels = max_depth + 1 - current_depth]
    levels left. *)
Fixpoint scrape_levels (W : DocsScraper.World) (levels : nat)
    (url output_file : string) (st : DocsScraper.state) (log : list string)
  : DocsScraper.outcome * list string :=
  match levels with
  | O => (DocsScraper.Returned st, log)
  | S levels' =>
      match DocsScraper.clean_url url with
      | None => (DocsScraper.Raised st, log)
      | Some clean =>
          if bool_decide (clean ∈ DocsScraper.visited_urls st)
          then (DocsScraper.Returned st, log)
          else
            let st :=
              DocsScraper.mkState ({[clean]} ∪ DocsScraper.visited_urls st)
                (DocsScraper.files st) (DocsScraper.fetched st ++ [clean]) in
            (* if len(self.visited_urls) == 1: self.analyze_page_structure(clean_url) *)
            let log :=
              if bool_decide (size (DocsScraper.visited_urls st) = 1)
              then analyze_page_structure W clean log else log in
            (* html = self.get_page_content(clean_url) *)
            let log := log ++ [clean] in
            match DocsScraper.get_page_content W clean with
            | Some html =>
                if negb (nonempty html) then (DocsScraper.Returned st, log)
                else
                  let content := (DocsScraper.extract_content W html clean).2 in
                  let st :=
                    if nonempty content && (200 <? String.length content)
                    then DocsScraper.mkState (DocsScraper.visited_urls st)
                           (DocsScraper.append_file output_file content
                              (DocsScraper.files st))
                           (DocsScraper.fetched st)
                    else st in
                  match DocsScraper.find_documentation_links W
                          (DocsScraper.visited_urls st) html clean with
                  | Some links =>
                      for_each
                        (λ link st log,
                           scrape_levels W levels' link output_file st log)
                        (DocsScraper.sorted links) st log
                  | None => (DocsScraper.Raised st, log)
                  end
            | None => (DocsScraper.Returned st, log)
            end
      end
  end.

(** [scrape_recursive(url, output_file, max_depth, current_depth)]. *)
Definition scrape_recursive (W : DocsScraper.World) (url output_file : string)
    (max_depth current_depth : Z) (st : DocsScraper.state) (log : list string)
  : DocsScraper.outcome * list string :=
  scrape_levels W (Z.to_nat (max_depth + 1 - current_depth)) url output_file
    st log.

(** [scrape_all] on an instance with base URL [base_url]. *)
Definition scrape_all (W : DocsScraper.World) (base_url output_file : string)
    (st : DocsScraper.state) (log : list string)
  : DocsScraper.outcome * list string :=
  let header :=
    "# NinjaTrader Desktop SDK Documentation" +:+ DocsScraper.nl +:+ DocsScraper.nl
    +:+ "Scraped from: " +:+ base_url +:+ DocsScraper.nl +:+ DocsScraper.nl
    +:+ "---" +:+ DocsScraper.nl +:+ DocsScraper.nl in
  let st :=
    DocsScraper.mkState (DocsScraper.visited_urls st)
      (<[output_file := header]> (DocsScraper.files st))
      (DocsScraper.fetched st) in
  scrape_recursive W base_url output_file 5 0 st log.

End DocsRequests.

(* ===================================================================== *)
(** ** Sample pages and sites *)
(* ===================================================================== *)

Module Samples.
Import PyStr Bs4 PyValue.

(** [c * n]. *)
Fixpoint times (n : nat) (c : ascii) : string :=
  match n with
  | O => EmptyString
  | S n' => String c (times n' c)
  end.

Definition text (s : string) : node := NavigableString s.
Definition elem (name : string) (cs : list node) : node := Tag name ∅ cs.
Definition link (href : string) : node :=
  Tag "a" {[ "href" := href ]} [text href].

(** [<html><head><title>t</title></head><body>...</body></html>]. *)
Definition html_page (t : string) (body : list node) : node :=
  document [elem "html" [elem "head" [elem "title" [text t]];
                         elem "body" body]].

(** A page whose [<main>] holds two characters while a [<div>] next to
    it holds 150. *)
Definition short_main_page : node :=
  html_page "Guide" [elem "main" [text "hi"]; elem "div" [text (times 150 "x")]].

(** A page whose [<main>] holds exactly [n] characters. *)
Definition main_page (n : nat) : node :=
  html_page "Guide" [elem "main" [text (times n "x")]].

(** A page without any element that a selector finds, the text in a
    [<div>]. *)
Definition div_page (n : nat) : node :=
  html_page "Guide" [elem "nav" [text "menu"]; elem "div" [text (times n "x")]].

(** The docs scraper's world with one parsed page for every response and
    plain text for Markdown. *)
Definition docs_world (site : string → option string) (page : node)
  : DocsScraper.World :=
  DocsScraper.mkWorld site (λ _, page) (get_text DocsScraper.nl).

Definition seed : string := "https://developer.ninjatrader.com/docs/desktop".

(** A site on which only the seed answers. *)
Definition seed_only (url : string) : option string :=
  if String.eqb url seed then Some "<html>" else None.

(** A site on which the seed and the pages [a] and [b] answer. *)
Definition small_site (url : string) : option string :=
  if String.eqb url seed
     || String.eqb url "https://developer.ninjatrader.com/docs/desktop/a"
     || String.eqb url "https://developer.ninjatrader.com/docs/desktop/b"
  then Some "<html>" else None.

(** The page of that site: links to the two pages, to a PDF and to an
    image. *)
Definition hub_page : node :=
  html_page "Hub"
    [elem "main" [text (times 120 "x");
                  link "/docs/desktop/a"; link "/docs/desktop/b#top";
                  link "/docs/desktop/a.pdf"; link "/docs/desktop/logo.gif"]].

(** A browser page with the given texts under [main] and the given
    links. *)
Definition browser_page (url : string) (main_texts : list string)
    (hrefs : list string) : SeleniumScraper.page :=
  SeleniumScraper.mkPage "Guide" url
    (λ selector, if String.eqb selector "main" then Some main_texts else Some [])
    (Some (join " " main_texts))
    (Some (Some <$> hrefs)).

Definition gif_url : string :=
  "https://developer.ninjatrader.com/docs/desktop/logo.gif".
Definition page_a_url : string :=
  "https://developer.ninjatrader.com/docs/desktop/a".

(** A site whose seed page loads and links to an image and to page [a];
    the load of [a] times out with the page partly built, a link to page
    [b] already in it. *)
Definition page_b_url : string :=
  "https://developer.ninjatrader.com/docs/desktop/b".

Definition selenium_site (url : string) : SeleniumScraper.load :=
  if String.eqb url seed then
    SeleniumScraper.Loaded
      (browser_page seed [times 120 "x"] [gif_url; page_a_url])
  else if String.eqb url page_a_url then
    SeleniumScraper.LoadError
      (Some (browser_page page_a_url [] [page_b_url]))
  else
    SeleniumScraper.Loaded (browser_page url [times 100 "x"] []).

Definition selenium_world : SeleniumScraper.World :=
  SeleniumScraper.mkWorld selenium_site (λ _, "2024-01-01 00:00:00") true.

(** [pop()] resolved to the least element. *)
Definition pop_least (urls : gset string) : option string :=
  head (merge_sort String.le (elements urls)).

(** A site for the API scraper: a sitemap that lists one page. *)
Definition api_world : ApiScraper.World :=
  ApiScraper.mkWorld
    (λ url, Some (200, if String.eqb url "https://developer.ninjatrader.com/sitemap.xml"
                       then "<urlset>" else "<html>"))
    (λ _, main_page 150)
    (λ _, [page_a_url]).

End Samples.

(* ===================================================================== *)
(** ** The traversal of a document, child by child *)
(* ===================================================================== *)

Module Bs4Walk.
Import PyStr Bs4.




End Bs4Walk.

(* ===================================================================== *)
(** ** The link graph that the docs scraper follows *)
(* ===================================================================== *)

Module DocsGraph.
Import PyStr UrlParse Bs4 DocsScraper.



(** The header that [scrape_all] writes. *)
Definition header (base_url : string) : string :=
  "# NinjaTrader Desktop SDK Documentation" +:+ nl +:+ nl
  +:+ "Scraped from: " +:+ base_url +:+ nl +:+ nl
  +:+ "---" +:+ nl +:+ nl.


End DocsGraph.

(* ===================================================================== *)
(** ** Further string operations *)
(* ===================================================================== *)

Module PyText.
Import PyStr.

(** [s[:n]]. *)
Fixpoint slice_to (n : nat) (s : string) : string :=
  match n, s with
  | S n', String a s' => String a (slice_to n' s')
  | _, _ => EmptyString
  end.

(** [str(n)] for a natural number [n]. *)
Definition str_of_nat (n : nat) : string :=
  NilEmpty.string_of_uint (Nat.to_uint n).

(** [c.lower()] for a character below 256: the letters [A-Z] and the
    capital letters of Latin-1 (192 to 222, the multiplication sign 215
    apart) move up by 32. *)
Definition lower_char (c : ascii) : ascii :=
  if between 65 90 c || (between 192 222 c && negb (Ascii.eqb c "215"))
  then ascii_of_nat (nat_of_ascii c + 32) else c.

(** [s.lower()]. *)
Definition lower (s : string) : string := map lower_char s.



End PyText.

(* ===================================================================== *)
(** ** Reading the records *)
(* ===================================================================== *)

Module PyRecord.
Import PyValue.

(** [doc[key]] for a key that holds a string; [None] when the subscript
    raises [KeyError], or holds a value that is not a string. *)
Definition field (key : string) (doc : value) : option string :=
  match dict_get key doc with
  | Some (VStr s) => Some s
  | _ => None
  end.

(** [doc['code_examples']], a list of strings. *)
Definition code_examples_of (doc : value) : option (list string) :=
  match dict_get "code_examples" doc with
  | Some (VList items) =>
      mapM (λ v, match v with VStr s => Some s | _ => None end) items
  | _ => None
  end.

End PyRecord.

(* ===================================================================== *)
(** ** [ninjatrader-selenium-scraper.py]: waiting, and the reports *)
(* ===================================================================== *)

Module SeleniumReport.
Import PyStr UrlParse PyValue PyText PyRecord SeleniumScraper.






Definition nl : string := String "010" EmptyString.


(** [content_preview]: the first 2000 characters, with a mark when
    something was cut. *)
Definition content_preview (content : string) : string :=
  let preview := slice_to 2000 content in
  if 2000 <? String.length content
  then preview +:+ "..." +:+ nl +:+ nl +:+ "[Content truncated]"
  else preview.

(** The code examples of a page: the first three, numbered from 1. *)
Definition code_section (codes : list string) : list string :=
  match codes with
  | [] => []
  | _ =>
      ("### Code Examples" +:+ nl +:+ nl)
      :: mjoin (imap (λ j code,
                     ["#### Example " +:+ str_of_nat (S j) +:+ nl +:+ nl;
                      "```csharp" +:+ nl;
                      code;
                      nl +:+ "```" +:+ nl +:+ nl])
               (List.firstn 3 codes))
  end.

(** What [save_results] writes for the document numbered [i]. *)
Definition doc_section (i : nat) (doc : value) : option (list string) :=
  title ← field "title" doc;
  url ← field "url" doc;
  scraped_at ← field "scraped_at" doc;
  content ← field "content" doc;
  codes ← code_examples_of doc;
  Some (["## " +:+ str_of_nat i +:+ ". " +:+ title +:+ nl +:+ nl;
         "**URL:** " +:+ url +:+ nl +:+ nl;
         "**Scraped:** " +:+ scraped_at +:+ nl +:+ nl;
         content_preview content;
         nl +:+ nl]
        ++ code_section codes
        ++ ["---" +:+ nl +:+ nl]).


(** A record as [extract_page_content] builds it: the five keys, strings
    under four of them and a list of strings under [code_examples]. *)
Definition well_formed (doc : value) : Prop :=
  ∃ url title content codes scraped_at,
    doc = VDict [("url", VStr url); ("title", VStr title);
                 ("content", VStr content);
                 ("code_examples", VList (VStr <$> codes));
                 ("scraped_at", VStr scraped_at)].




End SeleniumReport.

(* ===================================================================== *)
(** ** [ninjatrader_api_scraper.py]: the files of [save_documentation] *)
(* ===================================================================== *)

Module ApiReport.
Import PyStr Bs4 PyValue PyText PyRecord ApiScraper.

Definition nl : string := String "010" EmptyString.



(** The code examples of a page: the first three. *)
Definition code_section (codes : list string) : list string :=
  match codes with
  | [] => []
  | _ =>
      ("### Code Examples:" +:+ nl +:+ nl)
      :: mjoin ((λ code, ["```csharp" +:+ nl; code; nl +:+ "```" +:+ nl +:+ nl])
                <$> List.firstn 3 codes)
  end.

(** What [save_documentation] writes to the Markdown file for one
    record; [None] when a subscript raises. *)
Definition doc_section (doc : value) : option (list string) :=
  title ← field "title" doc;
  url ← field "url" doc;
  text ← field "text" doc;
  codes ← code_examples_of doc;
  Some ([nl +:+ "## " +:+ title +:+ nl +:+ nl;
         "**Source:** " +:+ url +:+ nl +:+ nl;
         slice_to 1000 text;
         nl +:+ nl]
        ++ code_section codes
        ++ ["---" +:+ nl +:+ nl]).

Definition markdown (all_docs : list value) : option (list string) :=
  sections ← mapM doc_section all_docs;
  Some (("# NinjaTrader Desktop SDK Documentation" +:+ nl +:+ nl)
        :: mjoin sections).


(** A record as [extract_documentation_content] builds it. *)
Definition well_formed (doc : value) : Prop :=
  ∃ url title text codes,
    doc = VDict [("url", VStr url); ("title", VStr title);
                 ("text", VStr text);
                 ("code_examples", VList (VStr <$> codes))].

End ApiReport.

(* ===================================================================== *)
(** ** Further sample pages *)
(* ===================================================================== *)

Module Cases.
Import PyStr Bs4 PyValue Samples.






End Cases.

(* ===================================================================== *)
(** ** Facts about the string methods *)
(* ===================================================================== *)

Section PyStrFacts.
Import PyStr.
Local Arguments String.append : simpl nomatch.
Implicit Types (s t u : string) (a c : ascii) (p : ascii → bool).

Lemma str_app_nil_r s : s +:+ "" = s.
Proof. induction s; simpl; congruence. Qed.

Lemma str_app_assoc s t u : (s +:+ t) +:+ u = s +:+ t +:+ u.
Proof. induction s; simpl; congruence. Qed.

Lemma eqb_false_ne a c : Ascii.eqb a c = false ↔ a ≠ c.
Proof. apply Ascii.eqb_neq. Qed.

Lemma contains_app c s t :
  contains c (s +:+ t) = contains c s || contains c t.
Proof. induction s as [|a s IH]; simpl; [done|]. by destruct (Ascii.eqb a c). Qed.

Lemma forallb_app p s t : forallb p (s +:+ t) = forallb p s && forallb p t.
Proof.
  induction s as [|a s IH]; simpl; [done|].
  rewrite IH. by destruct (p a).
Qed.

(** A string whose characters all satisfy [p] does not contain a
    character that fails [p]. *)
Lemma forallb_contains p c s :
  forallb p s = true → p c = false → contains c s = false.
Proof.
  intros Hs Hc. induction s as [|a s IH]; simpl in *; [done|].
  apply andb_true_iff in Hs as [Ha Hs].
  destruct (Ascii.eqb a c) eqn:E; [|auto].
  apply Ascii.eqb_eq in E. congruence.
Qed.

Lemma contains_forallb c s :
  contains c s = false ↔ forallb (λ a, negb (Ascii.eqb a c)) s = true.
Proof.
  induction s as [|a s IH]; simpl; [done|].
  destruct (Ascii.eqb a c); simpl; [split; discriminate | done].
Qed.

Lemma cut_None c s : cut c s = None ↔ contains c s = false.
Proof.
  induction s as [|a s IH]; simpl; [done|].
  destruct (Ascii.eqb a c); [done|].
  destruct (cut c s) as [[??]|]; [|done].
  split; [done|]. intros H. apply IH in H. done.
Qed.

Lemma cut_Some c s l r :
  cut c s = Some (l, r) → s = l +:+ String c r ∧ contains c l = false.
Proof.
  revert l. induction s as [|a s IH]; intros l; simpl; [done|].
  destruct (Ascii.eqb a c) eqn:E.
  - apply Ascii.eqb_eq in E as ->. intros [= <- <-]. done.
  - destruct (cut c s) as [[l' r']|]; [|done].
    intros [= <- <-]. destruct (IH l' eq_refl) as [-> ?].
    simpl. by rewrite E.
Qed.

Lemma cut_app c l r :
  contains c l = false → cut c (l +:+ String c r) = Some (l, r).
Proof.
  induction l as [|a l IH]; simpl.
  - by rewrite Ascii.eqb_refl.
  - destruct (Ascii.eqb a c); [done|]. intros H. by rewrite IH.
Qed.

(** Cutting at [c] ignores text appended after a later [c']. *)
Lemma cut_app_l c s t l r :
  cut c s = Some (l, r) → cut c (s +:+ t) = Some (l, r +:+ t).
Proof.
  intros [-> Hl]%cut_Some. rewrite str_app_assoc. simpl. by apply cut_app.
Qed.

Lemma span_spec p s l r :
  span p s = (l, r) →
  s = l +:+ r ∧ forallb p l = true ∧
  match r with String a _ => p a = false | EmptyString => True end.
Proof.
  revert l. induction s as [|a s IH]; intros l; simpl.
  - by intros [= <- <-].
  - destruct (p a) eqn:E.
    + destruct (span p s) as [l' r'].
      intros [= <- <-]. destruct (IH l' eq_refl) as (-> & ? & ?).
      simpl. rewrite E. done.
    + intros [= <- <-]. done.
Qed.

Lemma span_app p l r :
  forallb p l = true →
  match r with String a _ => p a = false | EmptyString => True end →
  span p (l +:+ r) = (l, r).
Proof.
  intros Hl Hr. induction l as [|a l IH]; simpl in *.
  - destruct r as [|a r]; simpl; [done|]. by rewrite Hr.
  - apply andb_true_iff in Hl as [-> Hl]. by rewrite IH.
Qed.

(** Text appended after a character that stops the span is left in the
    remainder. *)
Lemma span_app_stop p s c t :
  p c = false →
  span p (s +:+ String c t) = ((span p s).1, (span p s).2 +:+ String c t).
Proof.
  intros Hc. induction s as [|a s IH]; simpl.
  - by rewrite Hc.
  - destruct (p a); [|done]. rewrite IH. by destruct (span p s).
Qed.

Lemma lstrip_app_stop p s c t :
  p c = false → lstrip p (s +:+ String c t) = lstrip p s +:+ String c t.
Proof.
  intros Hc. induction s as [|a s IH]; simpl.
  - by rewrite Hc.
  - by destruct (p a).
Qed.

Lemma remove_app p s t : remove p (s +:+ t) = remove p s +:+ remove p t.
Proof.
  induction s as [|a s IH]; simpl; [done|].
  destruct (p a); simpl; congruence.
Qed.

Lemma remove_forallb p s : forallb (λ a, negb (p a)) (remove p s) = true.
Proof.
  induction s as [|a s IH]; simpl; [done|].
  destruct (p a) eqn:E; simpl; [done|]. by rewrite E.
Qed.

Lemma remove_id p s : forallb (λ a, negb (p a)) s = true → remove p s = s.
Proof.
  induction s as [|a s IH]; simpl; [done|].
  intros [Ha Hs]%andb_true_iff. apply negb_true_iff in Ha as ->.
  by rewrite IH.
Qed.

Lemma contains_remove c p s :
  contains c s = false → contains c (remove p s) = false.
Proof.
  induction s as [|a s IH]; simpl; [done|].
  destruct (Ascii.eqb a c) eqn:E; [done|].
  destruct (p a); simpl; [done|]. by rewrite E.
Qed.

Lemma contains_lstrip c p s :
  contains c s = false → contains c (lstrip p s) = false.
Proof.
  induction s as [|a s IH]; simpl; [done|].
  destruct (Ascii.eqb a c) eqn:E; [done|].
  destruct (p a); simpl; [done|]. by rewrite E.
Qed.

Lemma forallb_impl p (q : ascii → bool) s :
  (∀ a, p a = true → q a = true) → forallb p s = true → forallb q s = true.
Proof.
  intros Hpq. induction s as [|a s IH]; simpl; [done|].
  intros [?%Hpq ?%IH]%andb_true_iff. by apply andb_true_iff.
Qed.

Lemma forallb_map p (f : ascii → ascii) s :
  forallb p (map f s) = forallb (λ a, p (f a)) s.
Proof. induction s as [|a s IH]; simpl; congruence. Qed.

Lemma map_id_on (f : ascii → ascii) s :
  forallb (λ a, Ascii.eqb (f a) a) s = true → map f s = s.
Proof.
  induction s as [|a s IH]; simpl; [done|].
  intros [->%Ascii.eqb_eq ->%IH]%andb_true_iff. done.
Qed.

Lemma drop_prefix_app_stop2 a1 a2 s c t :
  c ≠ a1 → c ≠ a2 →
  drop_prefix (String a1 (String a2 "")) (s +:+ String c t)
  = (λ r, r +:+ String c t) <$> drop_prefix (String a1 (String a2 "")) s.
Proof.
  intros H1 H2. destruct s as [|b1 [|b2 s]]; simpl.
  - apply Ascii.eqb_neq in H1 as ->. done.
  - destruct (Ascii.eqb b1 a1); [|done].
    apply Ascii.eqb_neq in H2 as ->. done.
  - destruct (Ascii.eqb b1 a1); [|done].
    destruct (Ascii.eqb b2 a2); done.
Qed.

Lemma drop_prefix_Some pre s r : drop_prefix pre s = Some r → s = pre +:+ r.
Proof.
  revert s. induction pre as [|b pre IH]; intros [|a s]; simpl; try done.
  - by intros [= <-].
  - by intros [= <-].
  - destruct (Ascii.eqb a b) eqn:E; [|done].
    apply Ascii.eqb_eq in E as ->. intros ->%IH. done.
Qed.

Lemma drop_prefix_app pre r : drop_prefix pre (pre +:+ r) = Some r.
Proof.
  induction pre as [|b pre IH]; simpl; [done|].
  by rewrite Ascii.eqb_refl.
Qed.

Lemma rcut_keep_spec c s l r :
  rcut_keep c s = (l, r) →
  s = l +:+ r ∧
  match r with
  | String a r' => (contains c s = true → a = c) ∧ contains c r' = false
  | EmptyString => l = EmptyString
  end.
Proof.
  revert l. induction s as [|a s IH]; intros l; simpl.
  - by intros [= <- <-].
  - destruct (contains c s) eqn:E.
    + destruct (rcut_keep c s) as [l' r'].
      intros [= <- <-]. destruct (IH l' eq_refl) as (-> & Hr).
      split; [done|]. destruct r' as [|b r''].
      * subst l'. simpl in E. done.
      * destruct Hr as [Hb ?]. split; [|done]. intros _. by apply Hb.
    + intros [= <- <-]. split; [done|]. split; [|done].
      destruct (Ascii.eqb a c) eqn:E'; [|done].
      intros _. by apply Ascii.eqb_eq.
Qed.

Lemma rcut_keep_app c l r :
  contains c r = false → rcut_keep c (l +:+ String c r) = (l, String c r).
Proof.
  intros Hr. induction l as [|a l IH]; simpl.
  - by rewrite Hr.
  - rewrite contains_app. simpl. rewrite Ascii.eqb_refl, orb_true_r.
    by rewrite IH.
Qed.

End PyStrFacts.

(* ===================================================================== *)
(** ** Facts about [urlsplit] and [clean_url] *)
(* ===================================================================== *)

Section UrlFacts.
Import PyStr UrlParse DocsScraper.
Local Arguments String.append : simpl nomatch.
Local Arguments split_params : simpl never.
Implicit Types (s t u v r : string) (a c : ascii).

Lemma sanitize_app_stop u c t :
  c0_or_space c = false → unsafe_byte c = false →
  sanitize (u +:+ String c t)
  = sanitize u +:+ String c (remove unsafe_byte t).
Proof.
  intros H1 H2. unfold sanitize.
  rewrite lstrip_app_stop, remove_app by done. simpl. by rewrite H2.
Qed.

Lemma contains_sanitize c u :
  contains c u = false → contains c (sanitize u) = false.
Proof. intros. by apply contains_remove, contains_lstrip. Qed.

Lemma cut_app_absent c v a t :
  contains c v = false → a ≠ c →
  cut c (v +:+ String a t)
  = match cut c t with
    | Some (t1, t2) => Some (v +:+ String a t1, t2)
    | None => None
    end.
Proof.
  intros Hv Ha. induction v as [|b v IH]; simpl in *.
  - apply Ascii.eqb_neq in Ha as ->. by destruct (cut c t) as [[??]|].
  - destruct (Ascii.eqb b c); [done|]. rewrite IH by done.
    by destruct (cut c t) as [[??]|].
Qed.

Lemma split_scheme_app d v c t :
  scheme_char c = false → c ≠ ":"%char →
  split_scheme d (v +:+ String c t)
  = ((split_scheme d v).1, (split_scheme d v).2 +:+ String c t).
Proof.
  intros Hc Hne. unfold split_scheme.
  destruct (cut ":" v) as [[pre rest]|] eqn:E.
  - rewrite (cut_app_l _ _ _ _ _ E).
    destruct pre as [|a pre]; [done|].
    by destruct (isalpha a && forallb scheme_char (String a pre)).
  - apply cut_None in E. rewrite cut_app_absent by done.
    destruct (cut ":" t) as [[t1 t2]|]; [|done].
    destruct v as [|a v]; simpl.
    + by rewrite Hc, andb_false_r.
    + rewrite forallb_app. simpl. rewrite Hc. simpl.
      by rewrite !andb_false_r.
Qed.

Lemma split_scheme_rest d v :
  ∃ pre, v = pre +:+ (split_scheme d v).2.
Proof.
  unfold split_scheme. destruct (cut ":" v) as [[pre rest]|] eqn:E.
  - apply cut_Some in E as [-> _]. destruct pre as [|a pre].
    + by exists "".
    + destruct (isalpha a && forallb scheme_char (String a pre)); simpl.
      * exists (String a pre +:+ ":"). by rewrite str_app_assoc.
      * by exists "".
  - by exists "".
Qed.

Lemma contains_suffix c pre r :
  contains c (pre +:+ r) = false → contains c r = false.
Proof. rewrite contains_app. by intros [_ ?]%orb_false_iff. Qed.

Lemma split_netloc_app r c t :
  netloc_delim c = true → c ≠ "/"%char →
  split_netloc (r +:+ String c t)
  = (λ nr : string * string, (nr.1, nr.2 +:+ String c t)) <$> split_netloc r.
Proof.
  intros Hc Hne. unfold split_netloc.
  rewrite drop_prefix_app_stop2 by done.
  destruct (drop_prefix "//" r) as [rest|]; simpl; [|done].
  unfold _splitnetloc. rewrite span_app_stop by by rewrite Hc.
  destruct (span _ rest) as [nl rest']. simpl.
  by destruct (invalid_ipv6 nl).
Qed.

Lemma split_netloc_rest r nl r' :
  split_netloc r = Some (nl, r') → ∃ pre, r = pre +:+ r'.
Proof.
  unfold split_netloc. destruct (drop_prefix "//" r) as [rest|] eqn:E.
  - apply drop_prefix_Some in E as ->. unfold _splitnetloc.
    destruct (span _ rest) as [n x] eqn:Es.
    apply span_spec in Es as (-> & _).
    destruct (invalid_ipv6 n); [done|]. intros [= <- <-].
    exists ("//" +:+ n). by rewrite str_app_assoc.
  - intros [= <- <-]. by exists "".
Qed.

Lemma split_at_app c r t :
  contains c r = false → split_at c (r +:+ String c t) = (r, t).
Proof. intros. unfold split_at. by rewrite cut_app. Qed.

Lemma split_at_absent c r :
  contains c r = false → split_at c r = (r, "").
Proof. intros H. unfold split_at. apply cut_None in H. by rewrite H. Qed.

Lemma split_at_fst_absent c r : contains c (split_at c r).1 = false.
Proof.
  unfold split_at. destruct (cut c r) as [[l x]|] eqn:E; simpl.
  - by apply cut_Some in E as [_ ?].
  - by apply cut_None.
Qed.

Lemma split_at_fst_prefix c r : ∃ x, r = (split_at c r).1 +:+ x.
Proof.
  unfold split_at. destruct (cut c r) as [[l x]|] eqn:E; simpl.
  - apply cut_Some in E as [-> _]. eauto.
  - exists "". by rewrite str_app_nil_r.
Qed.

(** The rest of the text reached by the fragment and query steps has
    no ['#'] (resp. ['?']) when the input has none. *)
Lemma urlsplit_rest_absent c u d :
  contains c u = false →
  match split_netloc (split_scheme d (sanitize u)).2 with
  | Some (_, r) => contains c r = false
  | None => True
  end.
Proof.
  intros H%contains_sanitize.
  destruct (split_scheme_rest d (sanitize u)) as [pre Hpre].
  rewrite Hpre in H. apply contains_suffix in H.
  destruct (split_netloc _) as [[nl r]|] eqn:E; [|done].
  apply split_netloc_rest in E as [pre' E]. rewrite E in H.
  by apply contains_suffix in H.
Qed.

(** Appending a fragment changes only the fragment component. *)
Lemma urlsplit_fragment u f d :
  contains "#" u = false →
  urlsplit (u +:+ String "#" f) d
  = (λ x, let '(s, n, p, q, _) := x in (s, n, p, q, remove unsafe_byte f))
      <$> urlsplit u d.
Proof.
  intros Hu. unfold urlsplit.
  rewrite sanitize_app_stop by done.
  rewrite split_scheme_app by done.
  pose proof (urlsplit_rest_absent "#" u (remove unsafe_byte (rstrip c0_or_space (lstrip c0_or_space d))) Hu) as Hr.
  destruct (split_scheme _ (sanitize u)) as [sch r0]. simpl in *.
  rewrite split_netloc_app by done.
  destruct (split_netloc r0) as [[nl r]|]; simpl; [|done].
  rewrite split_at_app, (split_at_absent "#" r) by done.
  by destruct (split_at "?" r).
Qed.

(** Appending a query changes only the query and fragment components. *)
Lemma urlsplit_query u t d :
  contains "?" u = false → contains "#" u = false →
  ∃ q' f',
    urlsplit (u +:+ String "?" t) d
    = (λ x, let '(s, n, p, _, _) := x in (s, n, p, q', f'))
        <$> urlsplit u d.
Proof.
  intros Hq Hf. unfold urlsplit.
  rewrite sanitize_app_stop by done.
  rewrite split_scheme_app by done.
  pose proof (urlsplit_rest_absent "?" u (remove unsafe_byte (rstrip c0_or_space (lstrip c0_or_space d))) Hq) as Hrq.
  pose proof (urlsplit_rest_absent "#" u (remove unsafe_byte (rstrip c0_or_space (lstrip c0_or_space d))) Hf) as Hrf.
  destruct (split_scheme _ (sanitize u)) as [sch r0]. simpl in *.
  rewrite split_netloc_app by done.
  destruct (split_netloc r0) as [[nl r]|]; simpl; [|by exists "", ""].
  rewrite (split_at_absent "#" r), (split_at_absent "?" r) by done.
  set (t' := remove unsafe_byte t).
  destruct (cut "#" t') as [[t1 t2]|] eqn:Et.
  - exists t1, t2.
    assert (split_at "#" (r +:+ String "?" t') = (r +:+ String "?" t1, t2)) as ->.
    { unfold split_at. rewrite cut_app_absent by done. by rewrite Et. }
    by rewrite split_at_app.
  - exists t', "".
    assert (split_at "#" (r +:+ String "?" t') = (r +:+ String "?" t', "")) as ->.
    { unfold split_at. rewrite cut_app_absent by done. by rewrite Et. }
    by rewrite split_at_app.
Qed.

Lemma clean_url_fragment u f :
  contains "#" u = false → clean_url (u +:+ String "#" f) = clean_url u.
Proof.
  intros Hu. unfold clean_url, urlparse.
  rewrite urlsplit_fragment by done.
  destruct (urlsplit u "") as [[[[[s n] p] q] fr]|]; simpl; [|done].
  by destruct (split_params s p).
Qed.

Lemma clean_url_query u t :
  contains "?" u = false → contains "#" u = false →
  clean_url (u +:+ String "?" t) = clean_url u.
Proof.
  intros Hq Hf. unfold clean_url, urlparse.
  destruct (urlsplit_query u t "" Hq Hf) as (q' & f' & ->).
  destruct (urlsplit u "") as [[[[[s n] p] q] fr]|]; simpl; [|done].
  by destruct (split_params s p).
Qed.

End UrlFacts.

(* --------------------------------------------------------------------- *)
(** *** Re-parsing the output of [clean_url] *)

Section Reparse.
Import PyStr UrlParse DocsScraper.
Local Arguments String.append : simpl nomatch.
Local Arguments split_params : simpl never.
Implicit Types (s n p u v r : string) (a c : ascii).

Lemma scheme_char_facts c :
  scheme_char c = true →
  unsafe_byte c = false ∧ Ascii.eqb c ":" = false ∧
  scheme_char (lower_char c) = true ∧
  Ascii.eqb (lower_char (lower_char c)) (lower_char c) = true.
Proof. destruct c as [[] [] [] [] [] [] [] []]; by vm_compute. Qed.

Lemma isalpha_lower a :
  isalpha a = true →
  isalpha (lower_char a) = true ∧ c0_or_space (lower_char a) = false.
Proof. destruct a as [[] [] [] [] [] [] [] []]; by vm_compute. Qed.

Lemma forallb_prefix (q : ascii → bool) l x :
  forallb q (l +:+ x) = true → forallb q l = true.
Proof. rewrite forallb_app. by intros [? _]%andb_true_iff. Qed.

Lemma forallb_suffix (q : ascii → bool) l x :
  forallb q (l +:+ x) = true → forallb q x = true.
Proof. rewrite forallb_app. by intros [_ ?]%andb_true_iff. Qed.

Lemma contains_prefix c l x :
  contains c (l +:+ x) = false → contains c l = false.
Proof. rewrite contains_app. by intros [? _]%orb_false_iff. Qed.

Lemma rcut_keep_absent c s : contains c s = false → rcut_keep c s = ("", s).
Proof.
  destruct s as [|a s]; simpl; [done|].
  destruct (Ascii.eqb a c); [done|]. by intros ->.
Qed.

(** The parameter step is stable: applied to its own output it removes
    nothing more. *)
Lemma split_params_stable s p0 :
  split_params s (split_params s p0).1 = ((split_params s p0).1, "").
Proof.
  destruct (mem s uses_params && contains ";" p0) eqn:G.
  2: { assert (split_params s p0 = (p0, "")) as E
         by (unfold split_params; by rewrite G).
       rewrite E. simpl. exact E. }
  assert (split_params s p0 = _splitparams p0) as ->
    by (unfold split_params; by rewrite G).
  apply andb_true_iff in G as [Gs Gp].
  unfold _splitparams.
  destruct (rcut_keep "/" p0) as [d l] eqn:Er.
  destruct (cut ";" l) as [[x y]|] eqn:Ec; simpl.
  2: { unfold split_params, _splitparams. by rewrite Gs, Gp, Er, Ec. }
  apply cut_Some in Ec as [El Hx]. subst l.
  unfold split_params. rewrite Gs. simpl.
  destruct (contains ";" (d +:+ x)) eqn:Hd; [|done].
  unfold _splitparams.
  destruct (contains "/" p0) eqn:Hs.
  - apply rcut_keep_spec in Er as [_ Hr]. destruct x as [|a x]; simpl in Hr.
    + destruct Hr as [Ha _]. by specialize (Ha Hs).
    + destruct Hr as [Ha Hr]. rewrite (Ha Hs) in *.
      apply contains_prefix in Hr.
      rewrite rcut_keep_app by done.
      apply cut_None in Hx. by rewrite Hx.
  - rewrite rcut_keep_absent in Er by done. injection Er as Ed _.
    subst d. simpl in Hd. congruence.
Qed.

Lemma lstrip_head q a s : q a = false → lstrip q (String a s) = String a s.
Proof. intros H. simpl. by rewrite H. Qed.

Lemma split_scheme_rebuilt s r :
  match s with String a _ => isalpha a = true | EmptyString => False end →
  forallb scheme_char s = true → lower s = s →
  split_scheme "" (s +:+ String ":" r) = (s, r).
Proof.
  intros Ha Hs Hl. unfold split_scheme.
  rewrite cut_app.
  2: { eapply forallb_contains; [exact Hs|done]. }
  destruct s as [|a s]; [done|]. by rewrite Ha, Hs, Hl.
Qed.

(** A span over a text that starts with characters of the span. *)
Lemma span_app_forall q l x :
  forallb q l = true →
  span q (l +:+ x) = (l +:+ (span q x).1, (span q x).2).
Proof.
  intros Hl. induction l as [|a l IH]; simpl in *.
  - by destruct (span q x).
  - apply andb_true_iff in Hl as [-> Hl]. by rewrite IH.
Qed.

Lemma rcut_keep_app_r c h r :
  contains c r = true →
  rcut_keep c (h +:+ r) = (h +:+ (rcut_keep c r).1, (rcut_keep c r).2).
Proof.
  intros Hr. induction h as [|a h IH]; simpl.
  - by destruct (rcut_keep c r).
  - rewrite contains_app, Hr, orb_true_r. by rewrite IH.
Qed.

Lemma app_length_eq s t : s +:+ t = s → t = "".
Proof. induction s as [|a s IH]; simpl; [done|]. intros [= H]. auto. Qed.

(** The parameter step leaves a path alone if it leaves alone the same
    path behind a first segment. *)
Lemma split_params_suffix s h r :
  split_params s (h +:+ r) = (h +:+ r, "") →
  match r with String a _ => a = "/"%char | EmptyString => True end →
  split_params s r = (r, "").
Proof.
  intros Hp Hr. unfold split_params in *.
  destruct (mem s uses_params); simpl in *; [|done].
  destruct (contains ";" r) eqn:Hsr; [|done].
  rewrite contains_app, Hsr, orb_true_r in Hp.
  destruct r as [|a r]; [done|]. subst a.
  unfold _splitparams in *.
  rewrite rcut_keep_app_r in Hp by (simpl; done).
  destruct (rcut_keep "/" (String "/" r)) as [d l] eqn:Er. simpl in Hp.
  destruct (cut ";" l) as [[x y]|] eqn:Ec; [|done].
  exfalso. injection Hp as Hp ->.
  apply rcut_keep_spec in Er as [Er _]. rewrite Er in Hp.
  apply cut_Some in Ec as [-> _].
  rewrite <- !str_app_assoc in Hp.
  symmetry in Hp. by apply app_length_eq in Hp.
Qed.

Lemma host_span_rest p :
  contains "#" p = false → contains "?" p = false →
  contains "#" (span host_char p).2 = false ∧
  contains "?" (span host_char p).2 = false ∧
  match (span host_char p).2 with
  | String a _ => a = "/"%char
  | EmptyString => True
  end.
Proof.
  intros Hf Hq. destruct (span host_char p) as [h r] eqn:Es.
  apply span_spec in Es as (-> & _ & Hr). simpl.
  apply contains_suffix in Hf, Hq. split_and!; [done..|].
  destruct r as [|b r]; [done|]. simpl in Hf, Hq.
  unfold host_char, netloc_delim in Hr.
  destruct (Ascii.eqb b "#") eqn:E1; [done|].
  destruct (Ascii.eqb b "?") eqn:E2; [done|].
  destruct (Ascii.eqb b "/") eqn:E3; [|done].
  by apply Ascii.eqb_eq.
Qed.

(** Parsing the URL rebuilt from clean parts: the scheme comes back, the
    network location may take up the first segment of a path that does
    not start with a slash, and nothing else is found. *)
Lemma urlparse_rebuilt s n p :
  clean_parts s n p →
  urlparse (s +:+ "://" +:+ n +:+ p) ""
  = if invalid_ipv6 (n +:+ (span host_char p).1) then None
    else Some (mkParseResult s (n +:+ (span host_char p).1)
                 (span host_char p).2 "" "" "").
Proof.
  intros (Ha & Hs & Hl & Hh & Hsn & Hsp & Hf & Hq & Hprm & _).
  unfold urlparse, urlsplit.
  assert (sanitize (s +:+ "://" +:+ n +:+ p) = s +:+ "://" +:+ n +:+ p) as ->.
  { unfold sanitize. destruct s as [|a s]; [done|].
    simpl in Hl. injection Hl as Hla Hl.
    assert (c0_or_space a = false) as Hc
      by (rewrite <- Hla; by apply isalpha_lower).
    rewrite (lstrip_head _ _ _ Hc : lstrip _ (String a s +:+ _) = _).
    apply remove_id.
    change (forallb safe (String a s +:+ "://" +:+ n +:+ p) = true).
    rewrite !forallb_app, Hsn, Hsp.
    rewrite (forallb_impl scheme_char safe (String a s)); [done| |done].
    intros c H. unfold safe. by destruct (scheme_char_facts c H) as [-> _]. }
  change (remove unsafe_byte (rstrip c0_or_space (lstrip c0_or_space ""))) with "".
  change (s +:+ "://" +:+ n +:+ p) with (s +:+ String ":" ("//" +:+ n +:+ p)).
  rewrite split_scheme_rebuilt by done.
  unfold split_netloc. rewrite drop_prefix_app.
  unfold _splitnetloc. fold host_char. rewrite span_app_forall by done.
  destruct (host_span_rest p Hf Hq) as (Hf' & Hq' & Hr).
  pose proof (span_spec host_char p _ _ (surjective_pairing _)) as (Ep & _).
  destruct (invalid_ipv6 _); simpl; [done|].
  rewrite (split_at_absent "#"), (split_at_absent "?") by done. simpl.
  rewrite Ep in Hprm. by rewrite (split_params_suffix _ _ _ Hprm Hr).
Qed.

Lemma clean_url_rebuilt s n p :
  clean_parts s n p →
  clean_url (s +:+ "://" +:+ n +:+ p)
  = if invalid_ipv6 (n +:+ (span host_char p).1) then None
    else Some (s +:+ "://" +:+ n +:+ p).
Proof.
  intros H. unfold clean_url. rewrite (urlparse_rebuilt _ _ _ H).
  destruct (invalid_ipv6 _); simpl; [done|].
  pose proof (span_spec host_char p _ _ (surjective_pairing _)) as (Ep & _).
  rewrite str_app_assoc, <- Ep. done.
Qed.

Lemma split_params_prefix s p0 : ∃ x, p0 = (split_params s p0).1 +:+ x.
Proof.
  unfold split_params.
  destruct (mem s uses_params && contains ";" p0); simpl.
  2: { exists "". by rewrite str_app_nil_r. }
  unfold _splitparams. destruct (rcut_keep "/" p0) as [d l] eqn:Er.
  apply rcut_keep_spec in Er as [-> _].
  destruct (cut ";" l) as [[x y]|] eqn:Ec; simpl.
  - apply cut_Some in Ec as [-> _]. exists (String ";" y).
    by rewrite str_app_assoc.
  - exists "". by rewrite str_app_nil_r.
Qed.

Lemma lower_scheme x :
  forallb scheme_char x = true →
  forallb scheme_char (lower x) = true ∧ lower (lower x) = lower x.
Proof.
  intros H. unfold lower. split.
  - rewrite forallb_map. eapply forallb_impl; [|exact H].
    intros c Hc. by destruct (scheme_char_facts c Hc) as (_&_&?&_).
  - apply map_id_on. rewrite forallb_map. eapply forallb_impl; [|exact H].
    intros c Hc. by destruct (scheme_char_facts c Hc) as (_&_&_&?).
Qed.

Lemma split_scheme_found v s r :
  split_scheme "" v = (s, r) → s ≠ "" →
  ∃ a pre,
    v = String a pre +:+ String ":" r ∧ isalpha a = true ∧
    forallb scheme_char (String a pre) = true ∧ s = lower (String a pre).
Proof.
  unfold split_scheme.
  destruct (cut ":" v) as [[[|a pre] rest]|] eqn:Ec;
    [by intros [= <- <-]| |by intros [= <- <-]].
  destruct (isalpha a && forallb scheme_char (String a pre)) eqn:Et;
    [|by intros [= <- <-]].
  apply andb_true_iff in Et as [Ha Hs].
  apply cut_Some in Ec as [-> _].
  intros [= <- <-] _. by exists a, pre.
Qed.

Lemma split_netloc_found r n r1 :
  split_netloc r = Some (n, r1) →
  (∃ pre, r = pre +:+ n +:+ r1) ∧ forallb host_char n = true ∧
  (n ≠ "" →
   invalid_ipv6 n = false ∧
   match r1 with String c _ => netloc_delim c = true | EmptyString => True end).
Proof.
  unfold split_netloc.
  destruct (drop_prefix "//" r) as [rest|] eqn:Ed.
  2: { intros [= <- <-]. split_and!; [by exists ""|done..]. }
  apply drop_prefix_Some in Ed as ->.
  unfold _splitnetloc.
  destruct (span _ rest) as [n' r1'] eqn:Es.
  apply span_spec in Es as (-> & Hh & Hr1).
  destruct (invalid_ipv6 n') eqn:Hi; [done|].
  intros [= <- <-]. split_and!; [by exists "//"|done|].
  intros _. split; [done|].
  destruct r1' as [|c ?]; [done|]. by apply negb_false_iff.
Qed.

(** What [urlparse] returns for a URL with a scheme. *)
Lemma urlparse_clean_parts u parsed :
  urlparse u "" = Some parsed →
  scheme parsed ≠ "" →
  clean_parts (scheme parsed) (netloc parsed) (path parsed).
Proof.
  unfold urlparse, urlsplit.
  change (remove unsafe_byte (rstrip c0_or_space (lstrip c0_or_space ""))) with "".
  pose proof (remove_forallb unsafe_byte (lstrip c0_or_space u)) as Hv.
  fold (sanitize u) in Hv. change (forallb safe (sanitize u) = true) in Hv.
  revert Hv. generalize (sanitize u) as v. intros v Hv.
  destruct (split_scheme "" v) as [s r] eqn:Es. simpl.
  destruct (split_netloc r) as [[n r1]|] eqn:En; simpl; [|done].
  destruct (split_at_fst_prefix "#" r1) as [x1 E1].
  pose proof (split_at_fst_absent "#" r1) as Hf.
  destruct (split_at "#" r1) as [r2 fr]. simpl in *.
  destruct (split_at_fst_prefix "?" r2) as [x2 E2].
  pose proof (split_at_fst_absent "?" r2) as Hq.
  destruct (split_at "?" r2) as [p0 q]. simpl in *.
  destruct (split_params_prefix s p0) as [x3 E3].
  pose proof (split_params_stable s p0) as Hst.
  destruct (split_params s p0) as [p prm]. simpl in *.
  intros [= <-]. simpl. intros Hs.
  apply split_scheme_found in Es as (a & pre & -> & Ha & Hsc & ->); [|done].
  apply split_netloc_found in En as ([pre' ->] & Hh & Hn).
  subst r1 r2 p0.
  rewrite !forallb_app in Hv. apply andb_true_iff in Hv as [_ Hv].
  simpl in Hv. rewrite !forallb_app in Hv.
  apply andb_true_iff in Hv as [_ Hv].
  apply andb_true_iff in Hv as [Hsn Hv].
  apply andb_true_iff in Hv as [Hv _].
  apply andb_true_iff in Hv as [Hv _].
  apply andb_true_iff in Hv as [Hsp _].
  apply contains_prefix in Hq.
  apply contains_prefix, contains_prefix in Hf.
  destruct (lower_scheme (String a pre) Hsc) as [Hs1 Hs2].
  unfold clean_parts. split_and!; try done.
  - by apply isalpha_lower.
  - intros Hne. destruct (Hn Hne) as [Hi Hr1]. split; [done|].
    destruct p as [|b p]; [done|]. simpl in Hr1, Hf, Hq.
    unfold netloc_delim in Hr1.
    destruct (Ascii.eqb b "#") eqn:E1; [done|].
    destruct (Ascii.eqb b "?") eqn:E2; [done|].
    destruct (Ascii.eqb b "/") eqn:E3; [|done].
    by apply Ascii.eqb_eq.
Qed.

(** On a URL with a scheme, [clean_url] returns a URL that it leaves as
    it is: cleaned again, the result is the same URL, unless the second
    parse raises; with a network location it does not raise. *)
Lemma clean_url_fixed u parsed x :
  urlparse u "" = Some parsed →
  scheme parsed ≠ "" →
  clean_url u = Some x →
  (∀ x', clean_url x = Some x' → x' = x) ∧
  (netloc parsed ≠ "" → clean_url x = Some x).
Proof.
  intros Hp Hs. unfold clean_url at 1. rewrite Hp. simpl.
  intros [= <-].
  pose proof (urlparse_clean_parts u parsed Hp Hs) as Hc.
  change (scheme parsed +:+ String ":" (String "/" (String "/" (netloc parsed +:+ path parsed))))
    with (scheme parsed +:+ "://" +:+ netloc parsed +:+ path parsed).
  rewrite (clean_url_rebuilt _ _ _ Hc). split.
  - destruct (invalid_ipv6 _); [done|]. by intros x' [= <-].
  - intros Hn. destruct Hc as (_&_&_&_&_&_&_&_&_& Hn').
    destruct (Hn' Hn) as [Hi Hpath].
    assert (span host_char (path parsed) = ("", path parsed)) as ->.
    { destruct (path parsed) as [|a p]; [done|]. by subst a. }
    simpl. by rewrite str_app_nil_r, Hi.
Qed.

End Reparse.

(* ===================================================================== *)
(** ** The URL normalizer: claims C2 and C9 *)
(* ===================================================================== *)

Section Normalizer.
Import PyStr UrlParse DocsScraper.

(** The fragment equivalence of the specification, on the code. *)
Example fragment_equivalence :
  clean_url "https://x/docs/a#section1" = Some "https://x/docs/a" ∧
  clean_url "https://x/docs/a#section2" = Some "https://x/docs/a".
Proof. by vm_compute. Qed.

(** C2, as stated, fails: two URLs that differ only by their query string
    are cleaned to the same URL, with and without a base to resolve
    against, and the query is not part of the result. *)
Lemma C2_query_not_preserved :
  clean_url "https://x/docs/a?page=1" = Some "https://x/docs/a" ∧
  clean_url "https://x/docs/a?page=2" = Some "https://x/docs/a" ∧
  normalize "a?page=1" "https://x/docs/" = Some "https://x/docs/a" ∧
  normalize "a?page=2" "https://x/docs/" = Some "https://x/docs/a".
Proof. by vm_compute. Qed.

(** C2, amended: [clean_url] removes the fragment and the query string
    alike.  A URL [u] without ['?'] and ['#'], the same URL with any query
    (and fragment) appended, and the same URL with any fragment appended
    are all cleaned to the same result. *)
Theorem C2_clean_url_strips_query_and_fragment (u q f : string) :
  contains "?" u = false → contains "#" u = false →
  clean_url (u +:+ String "?" q) = clean_url u ∧
  clean_url (u +:+ String "#" f) = clean_url u ∧
  clean_url (u +:+ String "?" q +:+ String "#" f) = clean_url u.
Proof.
  intros Hq Hf. split_and!.
  - by apply clean_url_query.
  - by apply clean_url_fragment.
  - change (u +:+ String "?" q +:+ String "#" f)
      with (u +:+ String "?" (q +:+ String "#" f)).
    by apply clean_url_query.
Qed.

Lemma C2_clean_url_strips_query_and_fragment_witness :
  contains "?" "https://x/docs/a" = false ∧
  contains "#" "https://x/docs/a" = false ∧
  clean_url ("https://x/docs/a" +:+ String "?" "page=2") = clean_url "https://x/docs/a" ∧
  clean_url ("https://x/docs/a" +:+ String "#" "top") = clean_url "https://x/docs/a" ∧
  clean_url ("https://x/docs/a" +:+ String "?" "page=2" +:+ String "#" "top")
  = clean_url "https://x/docs/a".
Proof.
  split; [reflexivity|]. split; [reflexivity|].
  apply (C2_clean_url_strips_query_and_fragment "https://x/docs/a" "page=2" "top");
    reflexivity.
Defined.

(** C9, as stated, fails: on a relative reference [clean_url] is not
    idempotent, and a link target that [urljoin] returns unchanged can be
    cleaned into a URL on which the next normalization raises. *)
Lemma C9_not_idempotent :
  clean_url "docs/desktop" = Some "://docs/desktop" ∧
  clean_url "://docs/desktop" = Some "://://docs/desktop" ∧
  normalize "mailto:[x" default_base_url = Some "mailto://[x" ∧
  normalize "mailto://[x" default_base_url = None.
Proof. by vm_compute. Qed.

(** C9, amended: on every URL with a scheme [clean_url] is idempotent
    as far as the second application returns: cleaning the cleaned URL
    gives the same URL again or raises, and it does not raise when the
    URL has a network location, as every absolute [http] or [https] URL
    has. *)
Theorem C9_clean_url_idempotent (u : string) (parsed : ParseResult) (x : string) :
  urlparse u "" = Some parsed →
  scheme parsed ≠ "" →
  clean_url u = Some x →
  (∀ x', clean_url x = Some x' → x' = x) ∧
  (netloc parsed ≠ "" → clean_url x = Some x).
Proof. apply clean_url_fixed. Qed.

Lemma C9_clean_url_idempotent_witness :
  clean_url "https://developer.ninjatrader.com/docs/desktop/a;v=1?page=2#top"
  = Some "https://developer.ninjatrader.com/docs/desktop/a" ∧
  clean_url "https://developer.ninjatrader.com/docs/desktop/a"
  = Some "https://developer.ninjatrader.com/docs/desktop/a".
Proof.
  split; [reflexivity|].
  apply (C9_clean_url_idempotent
           "https://developer.ninjatrader.com/docs/desktop/a;v=1?page=2#top"
           (mkParseResult "https" "developer.ninjatrader.com"
              "/docs/desktop/a" "v=1" "page=2" "top")).
  - reflexivity.
  - discriminate.
  - reflexivity.
  - discriminate.
Defined.

End Normalizer.

(* ===================================================================== *)
(** ** The content extractor: claims C1 and C3 *)
(* ===================================================================== *)

Section Extractor.
Import PyStr UrlParse Bs4 PyValue Samples.

(** The lines printed by [extract_content] are those of the choice of the
    content element, followed at most by the one about minimal content. *)
Lemma extract_content_log W html url :
  ∃ tail,
    (DocsScraper.extract_content W html url).1
    = (DocsScraper.choose_content (DocsScraper.html_parser W html)).1 ++ tail ∧
    (tail = [] ∨ ∃ n, tail = [DocsScraper.MinimalContent n]).
Proof.
  unfold DocsScraper.extract_content.
  destruct (DocsScraper.choose_content _) as [log [c|]]; simpl.
  2: { exists []. by rewrite app_nil_r; auto. }
  destruct (DocsScraper.strip_unwanted _ c) as [soup' [content|]].
  2: { exists []. by rewrite app_nil_r; auto. }
  destruct (100 <? _); simpl.
  - exists []. rewrite app_nil_r. auto.
  - eexists. split; [done|]. right. eauto.
Qed.

(** C1, as stated, fails: on a page whose [<main>] holds two characters
    and whose [<div>] holds 150, the selector pass finds [<main>], the
    largest-text-block pass (which would return the [<div>]) is not run,
    and the page is given up on.  The API scraper takes the two
    characters of [<main>] as the text of the page in the same way. *)
Lemma C1_short_match_ends_cascade :
  let W := docs_world seed_only short_main_page in
  DocsScraper.first_selector DocsScraper.content_selectors short_main_page
  = Some (SelTag "main", [0; 1; 0]) ∧
  DocsScraper.find_largest_text_block short_main_page = Some [0; 1; 1] ∧
  (String.length <$> (get_text DocsScraper.nl <$> get [0; 1; 1] short_main_page))
  = Some 150 ∧
  DocsScraper.extract_content W "<html>" seed
  = ([DocsScraper.FoundSelector (SelTag "main"); DocsScraper.MinimalContent 2],
     "") ∧
  dict_get "text"
    <$> (ApiScraper.extract_documentation_content
           (ApiScraper.mkWorld (λ _, Some (200, "<html>"))
              (λ _, short_main_page) (λ _, []))
           seed ∅).2
  = Some (Some (VStr "hi")).
Proof. by vm_compute. Qed.

(** In the docs scraper a strategy supplies the content only when the
    strategies before it found no element. *)
Lemma docs_cascade W html url :
  let soup := DocsScraper.html_parser W html in
  let log := (DocsScraper.extract_content W html url).1 in
  (DocsScraper.UsingLargestTextBlock ∈ log →
     DocsScraper.first_selector DocsScraper.content_selectors soup = None) ∧
  (DocsScraper.UsingBodyWithoutNav ∈ log →
     (DocsScraper.first_selector DocsScraper.content_selectors soup = None ∧
      DocsScraper.find_largest_text_block soup = None)) ∧
  (DocsScraper.NoContentFound ∈ log →
     (DocsScraper.first_selector DocsScraper.content_selectors soup = None ∧
      DocsScraper.find_largest_text_block soup = None ∧
      DocsScraper.get_body_without_nav soup = None)) ∧
  (∀ sel p,
     DocsScraper.first_selector DocsScraper.content_selectors soup
     = Some (sel, p) →
     (DocsScraper.choose_content soup
      = ([DocsScraper.FoundSelector sel], Some (DocsScraper.InSoup p)) ∧
      (DocsScraper.UsingLargestTextBlock ∉ log) ∧
      (DocsScraper.UsingBodyWithoutNav ∉ log) ∧
      (DocsScraper.NoContentFound ∉ log))).
Proof.
  intros soup log.
  destruct (extract_content_log W html url) as (tail & Hlog & Htail).
  fold soup in Hlog. fold log in Hlog.
  assert (∀ e, e ∈ log → (∀ n, e ≠ DocsScraper.MinimalContent n) →
            e ∈ (DocsScraper.choose_content soup).1) as Hin.
  { intros e He Hne. rewrite Hlog in He. apply elem_of_app in He as [|He]; [done|].
    destruct Htail as [->|[n ->]]; [by apply elem_of_nil in He|].
    apply list_elem_of_singleton in He. by destruct (Hne n). }
  unfold DocsScraper.choose_content in *.
  destruct (DocsScraper.first_selector _ soup) as [[sel p]|] eqn:E1.
  { simpl in Hin.
    assert (∀ e, e ∈ log → (∀ n, e ≠ DocsScraper.MinimalContent n) →
              e = DocsScraper.FoundSelector sel) as Hin'.
    { intros e He Hne. by apply list_elem_of_singleton, Hin. }
    split_and!.
    - intros H. by specialize (Hin' _ H (λ n, ltac:(done))).
    - intros H. by specialize (Hin' _ H (λ n, ltac:(done))).
    - intros H. by specialize (Hin' _ H (λ n, ltac:(done))).
    - intros sel' p' [= <- <-]. split_and!; [done|..];
        intros H; by specialize (Hin' _ H (λ n, ltac:(done))). }
  destruct (DocsScraper.find_largest_text_block soup) as [p|] eqn:E2.
  { simpl in Hin.
    assert (∀ e, e ∈ log → (∀ n, e ≠ DocsScraper.MinimalContent n) →
              e = DocsScraper.UsingLargestTextBlock) as Hin'.
    { intros e He Hne. by apply list_elem_of_singleton, Hin. }
    split_and!; try done.
    - intros H. by specialize (Hin' _ H (λ n, ltac:(done))).
    - intros H. by specialize (Hin' _ H (λ n, ltac:(done))). }
  destruct (DocsScraper.get_body_without_nav soup) as [n|] eqn:E3.
  { simpl in Hin.
    assert (∀ e, e ∈ log → (∀ n, e ≠ DocsScraper.MinimalContent n) →
              e = DocsScraper.UsingBodyWithoutNav) as Hin'.
    { intros e He Hne. by apply list_elem_of_singleton, Hin. }
    split_and!; try done.
    intros H. by specialize (Hin' _ H (λ n, ltac:(done))). }
  split_and!; done.
Qed.

(** C1, amended: each stage of the cascade is attempted only if the
    stages before it found no element at all; the text length plays no
    part in the choice.  The largest-text-block pass supplies the content
    only when no selector matches an element, the body-without-navigation
    pass only when in addition no [<div>] holds text, and the last resort
    only when in addition there is no body.  When a selector matches, the
    matched element is the content and no later pass is run, whatever its
    length.  The API scraper likewise takes the first element that a
    selector matches and the body only when none matches. *)
Theorem C1_cascade_falls_back_on_absence (W : DocsScraper.World)
    (html url : string) :
  let soup := DocsScraper.html_parser W html in
  let log := (DocsScraper.extract_content W html url).1 in
  (DocsScraper.UsingLargestTextBlock ∈ log →
     DocsScraper.first_selector DocsScraper.content_selectors soup = None) ∧
  (DocsScraper.UsingBodyWithoutNav ∈ log →
     (DocsScraper.first_selector DocsScraper.content_selectors soup = None ∧
      DocsScraper.find_largest_text_block soup = None)) ∧
  (DocsScraper.NoContentFound ∈ log →
     (DocsScraper.first_selector DocsScraper.content_selectors soup = None ∧
      DocsScraper.find_largest_text_block soup = None ∧
      DocsScraper.get_body_without_nav soup = None)) ∧
  (∀ sel p,
     DocsScraper.first_selector DocsScraper.content_selectors soup
     = Some (sel, p) →
     (DocsScraper.choose_content soup
      = ([DocsScraper.FoundSelector sel], Some (DocsScraper.InSoup p)) ∧
      (DocsScraper.UsingLargestTextBlock ∉ log) ∧
      (DocsScraper.UsingBodyWithoutNav ∉ log) ∧
      (DocsScraper.NoContentFound ∉ log))) ∧
  (∀ api_soup,
     match ApiScraper.first_selector ApiScraper.selectors api_soup with
     | Some p => ApiScraper.choose_content api_soup = Some p
     | None => ApiScraper.choose_content api_soup = fst <$> find "body" api_soup
     end).
Proof.
  intros soup log.
  destruct (docs_cascade W html url) as (H1 & H2 & H3 & H4).
  split_and!; [exact H1|exact H2|exact H3|exact H4|].
  intros api_soup. unfold ApiScraper.choose_content.
  by destruct (ApiScraper.first_selector _ _).
Qed.

Lemma C1_cascade_falls_back_on_absence_witness :
  let W := docs_world seed_only (div_page 150) in
  DocsScraper.UsingLargestTextBlock ∈ (DocsScraper.extract_content W "<html>" seed).1 ∧
  DocsScraper.first_selector DocsScraper.content_selectors (div_page 150) = None.
Proof.
  intros W.
  assert (DocsScraper.UsingLargestTextBlock
            ∈ (DocsScraper.extract_content W "<html>" seed).1) as H.
  { vm_compute. apply list_elem_of_here. }
  split; [exact H|].
  exact (proj1 (C1_cascade_falls_back_on_absence W "<html>" seed) H).
Defined.


(** The content text of a loaded browser page: the longest selector
    text, replaced by the body without navigation words when shorter
    than 100 characters. *)
Lemma selenium_document_iff W url st :
  is_Some (SeleniumScraper.extract_page_content W url st).2 ↔
  ∃ shown p,
    SeleniumScraper.driver st = Some shown ∧
    SeleniumScraper.driver_get W url = SeleniumScraper.Loaded p ∧
    100 < String.length
            (SeleniumScraper.body_minus_navigation p
               (SeleniumScraper.longest_selector_text p)).
Proof.
  unfold SeleniumScraper.extract_page_content.
  destruct (SeleniumScraper.driver st) as [shown|]; simpl.
  2: { split; [by intros [? [=]]|]. by intros (?&?&[=]&_). }
  destruct (SeleniumScraper.driver_get W url) as [p|now_shown]; simpl.
  2: { split; [by intros [? [=]]|]. by intros (?&?&_&[=]&_). }
  destruct (100 <? _) eqn:E; simpl.
  - apply Nat.ltb_lt in E. split; [|by eauto]. intros _. by exists shown, p.
  - apply Nat.ltb_ge in E. split; [by intros [? [=]]|].
    intros (?&?&_&[= <-]&?). lia.
Qed.

Lemma docs_content_iff W html url :
  (DocsScraper.extract_content W html url).2 ≠ "" ↔
  ∃ c soup' content,
    (DocsScraper.choose_content (DocsScraper.html_parser W html)).2 = Some c ∧
    DocsScraper.strip_unwanted (DocsScraper.html_parser W html) c
    = (soup', Some content) ∧
    100 < String.length (get_text DocsScraper.nl content).
Proof.
  unfold DocsScraper.extract_content.
  destruct (DocsScraper.choose_content _) as [log [c|]]; simpl.
  2: { split; [done|]. by intros (?&?&?&[=]&_). }
  destruct (DocsScraper.strip_unwanted _ c) as [soup' [content|]] eqn:Es; simpl.
  2: { split; [done|]. intros (?&?&?&[= <-]&Hs&_). by rewrite Es in Hs. }
  destruct (100 <? _) eqn:E; simpl.
  - apply Nat.ltb_lt in E. split; [|done]. intros _. by exists c, soup', content.
  - apply Nat.ltb_ge in E. split; [done|].
    intros (?&?&?&[= <-]&Hs&?). rewrite Es in Hs. injection Hs as <- <-. lia.
Qed.

Lemma api_collect_docs_long W urls visited all_docs :
  Forall (λ d, 100 < str_len (dict_get "text" d)) all_docs →
  Forall (λ d, 100 < str_len (dict_get "text" d))
    (ApiScraper.collect_docs W urls visited all_docs).2.
Proof.
  revert visited all_docs.
  induction urls as [|url urls IH]; intros visited all_docs Hall; simpl; [done|].
  destruct (isin "/docs/desktop" url); [|by apply IH].
  destruct (ApiScraper.extract_documentation_content W url visited)
    as [visited' [c|]]; [|by apply IH].
  apply IH. destruct (100 <? _) eqn:E; [|done].
  apply Nat.ltb_lt in E. apply Forall_app. by split; [|constructor].
Qed.

(** C3, as stated, fails at the threshold itself: a page whose best
    block yields exactly 100 characters produces no Document, in the
    browser-driven scraper and in the docs scraper alike; 101 characters
    are needed. *)
Lemma C3_exactly_threshold_yields_nothing :
  let st := SeleniumScraper.set_driver SeleniumScraper.blank_page
              SeleniumScraper.init in
  let W := selenium_world in
  String.length (times 100 "x") = 100 ∧
  SeleniumScraper.driver_get W page_b_url
  = SeleniumScraper.Loaded (browser_page page_b_url [times 100 "x"] []) ∧
  (SeleniumScraper.extract_page_content W page_b_url st).2 = None ∧
  (DocsScraper.extract_content (docs_world seed_only (main_page 100))
     "<html>" seed).2 = "" ∧
  (DocsScraper.extract_content (docs_world seed_only (main_page 101))
     "<html>" seed).2 ≠ "".
Proof. by vm_compute. Qed.

(** C3, amended: the test is strict.  A Document is produced exactly
    when the text of the chosen block is longer than 100 characters: the
    browser-driven scraper returns a record exactly for a loaded page
    whose content text exceeds 100 characters, the docs scraper returns a
    non-empty section exactly for a content element whose text exceeds
    100 characters, and every record the API scraper writes has a text
    that exceeds 100 characters.  So 99 and 100 characters yield no
    Document, and 101 do. *)
Theorem C3_document_iff_longer_than_threshold :
  (∀ W url st,
     is_Some (SeleniumScraper.extract_page_content W url st).2 ↔
     ∃ shown p,
       SeleniumScraper.driver st = Some shown ∧
       SeleniumScraper.driver_get W url = SeleniumScraper.Loaded p ∧
       100 < String.length
               (SeleniumScraper.body_minus_navigation p
                  (SeleniumScraper.longest_selector_text p))) ∧
  (∀ W html url,
     (DocsScraper.extract_content W html url).2 ≠ "" ↔
     ∃ c soup' content,
       (DocsScraper.choose_content (DocsScraper.html_parser W html)).2 = Some c ∧
       DocsScraper.strip_unwanted (DocsScraper.html_parser W html) c
       = (soup', Some content) ∧
       100 < String.length (get_text DocsScraper.nl content)) ∧
  (∀ W visited,
     ∃ docs,
       (ApiScraper.save_documentation W visited).2 = VList docs ∧
       Forall (λ d, 100 < str_len (dict_get "text" d)) docs).
Proof.
  split_and!.
  - apply selenium_document_iff.
  - apply docs_content_iff.
  - intros W visited. unfold ApiScraper.save_documentation.
    pose proof (api_collect_docs_long W (take 50 (ApiScraper.scrape_from_sitemap W))
                  visited [] (Forall_nil_2 _)) as H.
    destruct (ApiScraper.collect_docs _ _ _ _) as [v all_docs].
    simpl in *. by exists all_docs.
Qed.

Lemma C3_document_iff_longer_than_threshold_witness :
  let st := SeleniumScraper.set_driver SeleniumScraper.blank_page
              SeleniumScraper.init in
  is_Some (SeleniumScraper.extract_page_content selenium_world seed st).2.
Proof.
  intros st.
  apply (proj1 C3_document_iff_longer_than_threshold selenium_world seed st).
  exists SeleniumScraper.blank_page,
    (browser_page seed [times 120 "x"] [gif_url; page_a_url]).
  split; [reflexivity|]. split; [reflexivity|].
  vm_compute. lia.
Defined.

End Extractor.

(* ===================================================================== *)
(** ** The browser-driven crawl: invariants of [scrape_site] *)
(* ===================================================================== *)

Section SeleniumFacts.
Import PyStr UrlParse PyValue SeleniumScraper.
Implicit Types (W : World) (st : state) (cfg : gset string * state)
  (url : string) (urls : gset string).

(** What [extract_page_content] leaves in the fields. *)
Lemma extract_page_content_fields W url st :
  let st' := (extract_page_content W url st).1 in
  visited_urls st' = visited_urls st ∧
  content_data st' = content_data st ∧
  (failed_urls st' = failed_urls st ∨ failed_urls st' = {[url]} ∪ failed_urls st) ∧
  (is_Some (driver st) → is_Some (driver st') ∧ extracted st' = extracted st ++ [url]) ∧
  (driver st = None → st' = st).
Proof.
  unfold extract_page_content.
  destruct (driver st) as [shown|] eqn:Ed; simpl.
  2: { split_and!; auto. by intros [? [=]]. }
  destruct (driver_get W url) as [p|now_shown]; simpl.
  - destruct (100 <? _); simpl; split_and!; auto; by intros [=].
  - split_and!; auto; by intros [=].
Qed.

Lemma after_extract_fields W url st :
  let st' := after_extract W url st in
  visited_urls st' = {[url]} ∪ visited_urls st ∧
  (failed_urls st' = failed_urls st ∨ failed_urls st' = {[url]} ∪ failed_urls st) ∧
  (is_Some (driver st) → is_Some (driver st') ∧ extracted st' = extracted st ++ [url]) ∧
  (content_data st' = content_data st ∨
   ∃ c, (extract_page_content W url (after_add url st)).2 = Some c ∧
        content_data st' = content_data st ++ [c]).
Proof.
  unfold after_extract.
  pose proof (extract_page_content_fields W url (after_add url st)) as H.
  destruct (extract_page_content W url (after_add url st)) as [st' [c|]];
    simpl in *; destruct H as (Hv & Hc & Hf & Hd & _);
    rewrite ?Hv, ?Hc; split_and!; auto.
  right. by exists c.
Qed.


Lemma iteration_skip W url urls st :
  url ∈ visited_urls st → iteration W url (urls, st) = (urls ∖ {[url]}, st).
Proof. intros H. unfold iteration. by rewrite bool_decide_eq_true_2. Qed.

Lemma iteration_fresh W url urls st :
  url ∉ visited_urls st →
  iteration W url (urls, st)
  = ((urls ∖ {[url]})
       ∪ (find_documentation_links (after_extract W url st)
            ∖ visited_urls (after_extract W url st)),
     sleep 1 (after_extract W url st)).
Proof. intros H. unfold iteration. by rewrite bool_decide_eq_false_2. Qed.

(** ** Failed pages are visited pages *)

Lemma failed_visited_after_add url st :
  failed_visited st → failed_visited (after_add url st).
Proof. unfold failed_visited. simpl. set_solver. Qed.

Lemma failed_visited_after_extract W url st :
  failed_visited st → failed_visited (after_extract W url st).
Proof.
  unfold failed_visited.
  destruct (after_extract_fields W url st) as (-> & [-> | ->] & _); set_solver.
Qed.

Lemma failed_visited_iteration W url cfg :
  failed_visited cfg.2 → failed_visited (iteration W url cfg).2.
Proof.
  destruct cfg as [urls st]. simpl. intros H. unfold iteration.
  case_bool_decide; simpl; [done|].
  by apply (failed_visited_after_extract W url) in H.
Qed.

Lemma failed_visited_rtc W max_pages cfg cfg' :
  rtc (step W max_pages) cfg cfg' →
  failed_visited cfg.2 → failed_visited cfg'.2.
Proof.
  induction 1 as [|cfg cfg1 cfg2 Hstep _ IH]; [done|].
  intros H. apply IH. destruct Hstep. by apply failed_visited_iteration.
Qed.

(** A completed loop is a sequence of iterations that ends where the loop
    condition fails. *)
Lemma loop_rtc W max_pages cfg st' :
  loop W max_pages cfg st' →
  ∃ cfg', rtc (step W max_pages) cfg cfg' ∧ cfg'.2 = st' ∧
          ¬ continues max_pages cfg'.
Proof.
  induction 1 as [cfg Hc|cfg cfg1 st' Hstep _ (cfg' & Hr & He & Hc)].
  - by exists cfg.
  - exists cfg'. split_and!; [|done..]. by econstructor.
Qed.

(** ** Each URL is processed once, and the page cap holds *)

Lemma processed_once_step W max_pages cfg cfg' :
  step W max_pages cfg cfg' →
  processed_once max_pages cfg.2 → processed_once max_pages cfg'.2.
Proof.
  intros [[urls st] url [_ Hlt] Hin] (Hd & Hnd & Hex & Hsz). simpl in *.
  unfold iteration. case_bool_decide as Hv; simpl; [done|].
  destruct (after_extract_fields W url st) as (Ev & _ & Hdrv & _).
  destruct (Hdrv Hd) as [Hd' Ee].
  unfold processed_once. simpl. rewrite Ev, Ee. split_and!.
  - done.
  - apply NoDup_app. split_and!; [done| |apply NoDup_singleton].
    intros x Hx ->%list_elem_of_singleton. by apply Hv, Hex.
  - intros x. rewrite elem_of_app, list_elem_of_singleton, Hex. set_solver.
  - rewrite size_union by set_solver. rewrite size_singleton. lia.
Qed.

Lemma processed_once_rtc W max_pages cfg cfg' :
  rtc (step W max_pages) cfg cfg' →
  processed_once max_pages cfg.2 → processed_once max_pages cfg'.2.
Proof.
  induction 1 as [|cfg cfg1 cfg2 Hstep _ IH]; [done|].
  intros H. by apply IH, (processed_once_step W max_pages cfg).
Qed.

(** ** Resolving [pop()] *)

Lemma run_loop W choose max_pages fuel cfg :
  (∀ s u, choose s = Some u → u ∈ s) →
  (∀ s, choose s = None → s = ∅) →
  ¬ continues max_pages (run W choose max_pages fuel cfg) →
  loop W max_pages cfg (run W choose max_pages fuel cfg).2.
Proof.
  intros Hsome Hnone. revert cfg.
  induction fuel as [|fuel IH]; intros cfg; simpl.
  - apply loop_exit.
  - case_bool_decide as Hlt; [|apply loop_exit].
    destruct (choose cfg.1) as [url|] eqn:Ec; [|apply loop_exit].
    intros Hend. eapply loop_iter; [|by apply IH].
    constructor; [|by apply Hsome].
    split; [|done]. apply Hsome in Ec. set_solver.
Qed.

Lemma pop_least_Some s u : Samples.pop_least s = Some u → u ∈ s.
Proof.
  unfold Samples.pop_least. intros H.
  apply elem_of_elements.
  rewrite <- (merge_sort_Permutation String.le (elements s)).
  destruct (merge_sort _ _); simplify_eq/=. left.
Qed.

Lemma pop_least_None s : Samples.pop_least s = None → s = ∅.
Proof.
  unfold Samples.pop_least. intros H.
  apply leibniz_equiv, elements_empty_inv.
  apply Permutation_nil_r.
  rewrite <- (merge_sort_Permutation String.le (elements s)).
  by destruct (merge_sort _ _).
Qed.

End SeleniumFacts.

(* ===================================================================== *)
(** ** The recursive crawl: invariants of [scrape_recursive] *)
(* ===================================================================== *)

Section DocsFacts.
Import PyStr UrlParse Bs4 DocsScraper.
Implicit Types (W : World) (st : state) (url : string).

Lemma for_each_final {A} (P : state → Prop) (body : A → state → outcome) l st :
  (∀ x st, P st → P (final (body x st))) →
  P st → P (final (for_each body l st)).
Proof.
  intros Hbody. revert st. induction l as [|x l IH]; intros st Hst; simpl; [done|].
  specialize (Hbody x st Hst). destruct (body x st) as [st'|st']; simpl in *; auto.
Qed.

Lemma scrape_levels_fetched_once W levels url output_file st :
  fetched_once st →
  fetched_once (final (scrape_levels W levels url output_file st)).
Proof.
  revert url st. induction levels as [|levels IH]; intros url st Hst; simpl; [done|].
  destruct (clean_url url) as [clean|]; simpl; [|done].
  case_bool_decide as Hv; simpl; [done|].
  set (st1 := mkState ({[clean]} ∪ visited_urls st) (files st) (fetched st ++ [clean])).
  assert (fetched_once st1) as H1.
  { destruct Hst as [Hnd Hex]. split; simpl.
    - apply NoDup_app. split_and!; [done| |apply NoDup_singleton].
      intros x Hx ->%list_elem_of_singleton. by apply Hv, Hex.
    - intros x. rewrite elem_of_app, list_elem_of_singleton, Hex. set_solver. }
  destruct (get_page_content W clean) as [html|]; simpl; [|done].
  destruct (nonempty html); simpl; [|done].
  set (st2 := if _ && _ then _ else st1).
  assert (fetched_once st2) as H2 by (unfold st2; by destruct (_ && _)).
  destruct (find_documentation_links W (visited_urls st2) html clean); [|done].
  by apply for_each_final.
Qed.

(** A failed fetch: the URL is visited, nothing is written, no link is
    followed, and the call returns. *)
Lemma scrape_levels_fetch_failed W levels url output_file st clean :
  clean_url url = Some clean → clean ∉ visited_urls st →
  get_page_content W clean = None →
  scrape_levels W (S levels) url output_file st
  = Returned (mkState ({[clean]} ∪ visited_urls st) (files st)
                (fetched st ++ [clean])).
Proof.
  intros Hc Hv Hg. simpl. rewrite Hc. rewrite bool_decide_eq_false_2 by done.
  by rewrite Hg.
Qed.

(** A URL already visited is not processed again. *)
Lemma scrape_levels_visited W levels url output_file st clean :
  clean_url url = Some clean → clean ∈ visited_urls st →
  scrape_levels W levels url output_file st = Returned st.
Proof.
  intros Hc Hv. destruct levels; simpl; [done|].
  rewrite Hc. by rewrite bool_decide_eq_true_2.
Qed.

(** The list of fetched URLs only grows at its end. *)
Lemma scrape_levels_fetched_prefix W levels url output_file st :
  fetched st `prefix_of`
    fetched (final (scrape_levels W levels url output_file st)).
Proof.
  revert url st. induction levels as [|levels IH]; intros url st; simpl; [done|].
  destruct (clean_url url) as [clean|]; simpl; [|done].
  case_bool_decide; simpl; [done|].
  destruct (get_page_content W clean) as [html|]; simpl; [|by apply prefix_app_r].
  destruct (nonempty html); simpl; [|by apply prefix_app_r].
  set (st2 := if _ && _ then _ else _).
  assert (fetched st `prefix_of` fetched st2) as H2.
  { unfold st2. destruct (_ && _); simpl; by apply prefix_app_r. }
  destruct (find_documentation_links _ _ _ _) as [links|]; [|done].
  apply (for_each_final (λ st', fetched st `prefix_of` fetched st')); [|done].
  intros x st' Hst'. etrans; [exact Hst'|apply IH].
Qed.

(** An unvisited URL is the next one fetched. *)
Lemma scrape_levels_fetches_first W levels url output_file st clean :
  clean_url url = Some clean → clean ∉ visited_urls st →
  ∃ rest,
    fetched (final (scrape_levels W (S levels) url output_file st))
    = fetched st ++ clean :: rest.
Proof.
  intros Hc Hv. simpl. rewrite Hc. rewrite bool_decide_eq_false_2 by done.
  destruct (get_page_content W clean) as [html|]; simpl; [|by exists []].
  destruct (nonempty html); simpl; [|by exists []].
  set (st2 := if _ && _ then _ else _).
  assert (fetched st2 = fetched st ++ [clean]) as H2.
  { unfold st2. by destruct (_ && _). }
  destruct (find_documentation_links _ _ _ _) as [links|]; simpl;
    [|exists []; by rewrite H2].
  pose proof (for_each_final (λ st', fetched st2 `prefix_of` fetched st')
                (λ link st, scrape_levels W levels link output_file st)
                (sorted links) st2) as [rest Hrest]; [|done|].
  { intros x st' Hst'. etrans; [exact Hst'|apply scrape_levels_fetched_prefix]. }
  exists rest. rewrite Hrest, H2. by rewrite <- (assoc_L (++)).
Qed.

End DocsFacts.

(* ===================================================================== *)
(** ** The link filter of the docs scraper *)
(* ===================================================================== *)

Section DocsFilter.
Import PyStr UrlParse Bs4 DocsScraper.
Implicit Types (W : World) (st : state) (url : string).

(** The link filter of the docs scraper rejects every URL that ends with
    one of its seven extensions. *)
Lemma docs_filter_rejects_extensions visited url ext :
  ext ∈ DocsScraper.excluded_extensions →
  endswith url ext = true →
  DocsScraper.accepts visited url = false.
Proof.
  intros Hext Hends. unfold DocsScraper.accepts.
  assert (existsb (endswith url) DocsScraper.excluded_extensions = true) as ->.
  { apply existsb_exists. exists ext. split; [|done]. by apply list_elem_of_In. }
  simpl. by rewrite andb_false_r.
Qed.

Lemma docs_links_exclude_extensions visited current_url hs links result :
  DocsScraper.collect_links visited current_url hs links = Some result →
  (∀ l, l ∈ links → DocsScraper.accepts visited l = true) →
  ∀ l, l ∈ result → DocsScraper.accepts visited l = true.
Proof.
  revert links. induction hs as [|href hs IH]; intros links; simpl.
  - by intros [= <-].
  - destruct (DocsScraper.normalize href current_url) as [absolute_url|];
      simpl; [|done].
    intros Hc Hl. eapply IH; [exact Hc|].
    destruct (DocsScraper.accepts visited absolute_url) eqn:E; [|done].
    intros l [->%elem_of_singleton|?]%elem_of_union; auto.
Qed.

(** A cleaned URL that passes the filter is left as it is by
    [clean_url]. *)
Lemma accepted_clean_url_fixed visited y link x' :
  clean_url y = Some link → accepts visited link = true →
  clean_url link = Some x' → x' = link.
Proof.
  intros Hy Ha Hl. unfold clean_url in Hy.
  destruct (urlparse y "") as [parsed|] eqn:Hp; simplify_eq/=.
  assert (scheme parsed ≠ "") as Hs.
  { intros Hs. rewrite Hs in Ha. by vm_compute in Ha. }
  eapply (clean_url_fixed y parsed); [done..| |exact Hl].
  unfold clean_url. by rewrite Hp.
Qed.

(** The links collected are cleaned URLs that pass the filter. *)
Lemma collect_links_accepted visited current_url hs links result :
  collect_links visited current_url hs links = Some result →
  ∀ l, l ∈ result →
    l ∈ links ∨ (accepts visited l = true ∧ ∃ y, clean_url y = Some l).
Proof.
  revert links. induction hs as [|href hs IH]; intros links; simpl.
  - intros [= <-]. auto.
  - destruct (normalize href current_url) as [absolute_url|] eqn:En;
      simpl; [|done].
    intros Hc l Hl. destruct (IH _ Hc l Hl) as [Hin|?]; [|by right].
    destruct (accepts visited absolute_url) eqn:Ea; [|by left].
    apply elem_of_union in Hin as [->%elem_of_singleton|?]; [|by left].
    right. split; [done|]. unfold normalize in En.
    destruct (urljoin current_url href) as [y|]; simplify_eq/=. by exists y.
Qed.

Lemma for_each_final_in {A} (P : state → Prop) (body : A → state → outcome)
    (l : list A) st :
  (∀ x st, x ∈ l → P st → P (final (body x st))) →
  P st → P (final (for_each body l st)).
Proof.
  revert st. induction l as [|x l IH]; intros st Hbody Hst; simpl; [done|].
  pose proof (Hbody x st (list_elem_of_here _ _) Hst) as Hx.
  destruct (body x st) as [st'|st']; simpl in *; [|done].
  apply IH; [|done]. intros y st'' Hy. apply Hbody. by right.
Qed.

(** Every URL that a crawl adds to the visited set is the cleaned start
    URL or a cleaned link that passed the filter. *)
Lemma scrape_levels_visited_accepted W (G : string → Prop) levels url
    output_file st :
  (∀ visited l y, accepts visited l = true → clean_url y = Some l → G l) →
  (∀ c, clean_url url = Some c → G c) →
  (∀ x, x ∈ visited_urls st → G x) →
  ∀ x, x ∈ visited_urls (final (scrape_levels W levels url output_file st)) → G x.
Proof.
  intros HG. revert url st.
  induction levels as [|levels IH]; intros url st Hurl Hst; simpl; [done|].
  destruct (clean_url url) as [clean|] eqn:Ec; simpl; [|done].
  case_bool_decide as Hv; simpl; [done|].
  assert (∀ x, x ∈ {[clean]} ∪ visited_urls st → G x) as H1.
  { intros x [->%elem_of_singleton|?]%elem_of_union; auto. }
  destruct (get_page_content W clean) as [html|]; simpl; [|done].
  destruct (nonempty html); simpl; [|done].
  set (st2 := if _ && _ then _ else _).
  assert (visited_urls st2 = {[clean]} ∪ visited_urls st) as E2.
  { unfold st2. by destruct (_ && _). }
  unfold find_documentation_links.
  destruct (collect_links _ _ _ _) as [links|] eqn:El; simpl;
    [|by rewrite E2].
  apply (for_each_final_in (λ st', ∀ x, x ∈ visited_urls st' → G x));
    [|by rewrite E2].
  intros link st' Hlink Hst'. apply IH; [|done].
  intros c Hc. unfold sorted in Hlink.
  rewrite merge_sort_Permutation in Hlink. apply elem_of_elements in Hlink.
  destruct (collect_links_accepted _ _ _ _ _ El link Hlink) as [?|[Ha [y Hy]]];
    [set_solver|].
  rewrite (accepted_clean_url_fixed _ _ _ _ Hy Ha Hc). by eapply HG.
Qed.

(** In a crawl of the docs scraper on a new scraper, a visited URL that
    ends with an excluded extension can only be the start URL itself: no
    link with such an extension is ever visited. *)
Lemma docs_visited_exclude_extensions W base_url output_file x ext :
  x ∈ visited_urls (final (scrape_all W base_url output_file init)) →
  ext ∈ excluded_extensions → endswith x ext = true →
  clean_url base_url = Some x.
Proof.
  intros Hx Hext Hends.
  assert (∀ z, z ∈ visited_urls (final (scrape_all W base_url output_file init)) →
            (∃ e, e ∈ excluded_extensions ∧ endswith z e = true) →
            clean_url base_url = Some z) as H; [|by eauto].
  unfold scrape_all, scrape_recursive.
  apply (scrape_levels_visited_accepted W
           (λ z, (∃ e, e ∈ excluded_extensions ∧ endswith z e = true) →
                 clean_url base_url = Some z)).
  - intros visited l y Ha _ (e & He & Hle).
    by rewrite (docs_filter_rejects_extensions visited l e) in Ha.
  - by intros c Hc _.
  - simpl. set_solver.
Qed.

(** The scenario of the specification on the docs scraper: the pages [a]
    and [b] are crawled after the seed, the PDF and the image are not. *)
Example docs_scenario :
  let st := final (scrape_all (Samples.docs_world Samples.small_site Samples.hub_page)
                     Samples.seed "out.md" init) in
  fetched st
  = [Samples.seed;
     "https://developer.ninjatrader.com/docs/desktop/a";
     "https://developer.ninjatrader.com/docs/desktop/b"] ∧
  bool_decide ("https://developer.ninjatrader.com/docs/desktop/a.pdf"
               ∈ visited_urls st) = false ∧
  bool_decide (Samples.gif_url ∈ visited_urls st) = false.
Proof. by vm_compute. Qed.

End DocsFilter.

(* ===================================================================== *)
(** ** One invocation: the URLs processed and the requests made *)
(* ===================================================================== *)

Section InvocationFacts.
Implicit Types (url : string).

Lemma processed_refl visited log : Invocation.processed visited visited log log [].
Proof.
  split_and!; [by rewrite app_nil_r|constructor|by intros x ?%elem_of_nil|].
  simpl. set_solver.
Qed.

Lemma processed_trans visited1 visited2 visited3 log1 log2 log3 new1 new2 :
  Invocation.processed visited1 visited2 log1 log2 new1 →
  Invocation.processed visited2 visited3 log2 log3 new2 →
  Invocation.processed visited1 visited3 log1 log3 (new1 ++ new2).
Proof.
  intros (-> & Hnd1 & Hn1 & ->) (-> & Hnd2 & Hn2 & ->). split_and!.
  - by rewrite (assoc_L (++)).
  - apply NoDup_app. split_and!; [done| |done].
    intros x Hx1 Hx2. apply (Hn2 x Hx2). set_solver.
  - intros x [?|Hx]%elem_of_app; [by apply Hn1|].
    specialize (Hn2 x Hx). set_solver.
  - rewrite list_to_set_app_L. set_solver.
Qed.

Lemma processed_one visited log x :
  x ∉ visited →
  Invocation.processed visited ({[x]} ∪ visited) log (log ++ [x]) [x].
Proof.
  intros Hx. split_and!; [done|apply NoDup_singleton| |simpl; set_solver].
  by intros y ->%list_elem_of_singleton.
Qed.

(** *** The docs scraper *)

Lemma docs_for_each_log {A} (P : DocsScraper.state → list string → Prop)
    (body : A → DocsScraper.state → list string
            → DocsScraper.outcome * list string) l st log :
  (∀ x st log, P st log →
               P (DocsScraper.final (body x st log).1) (body x st log).2) →
  P st log →
  P (DocsScraper.final (DocsRequests.for_each body l st log).1)
    (DocsRequests.for_each body l st log).2.
Proof.
  intros Hbody. revert st log.
  induction l as [|x l IH]; intros st log Hst; simpl; [done|].
  specialize (Hbody x st log Hst).
  destruct (body x st log) as [[st'|st'] log']; simpl in *; auto.
Qed.

Lemma docs_for_each_erase {A}
    (body' : A → DocsScraper.state → list string
             → DocsScraper.outcome * list string)
    (body : A → DocsScraper.state → DocsScraper.outcome) l st log :
  (∀ x st log, (body' x st log).1 = body x st) →
  (DocsRequests.for_each body' l st log).1 = DocsScraper.for_each body l st.
Proof.
  intros Hbody. revert st log.
  induction l as [|x l IH]; intros st log; simpl; [done|].
  specialize (Hbody x st log).
  destruct (body' x st log) as [[st'|st'] log']; simpl in *; rewrite <- Hbody;
    [apply IH|done].
Qed.

(** Without its log, the crawl is the crawl of [DocsScraper]. *)
Lemma docs_scrape_levels_erase W levels url output_file st log :
  (DocsRequests.scrape_levels W levels url output_file st log).1
  = DocsScraper.scrape_levels W levels url output_file st.
Proof.
  revert url st log.
  induction levels as [|levels IH]; intros url st log; simpl; [done|].
  destruct (DocsScraper.clean_url url) as [clean|]; simpl; [|done].
  case_bool_decide; simpl; [done|].
  destruct (DocsScraper.get_page_content W clean) as [html|]; simpl; [|done].
  destruct (PyStr.nonempty html); simpl; [|done].
  destruct (DocsScraper.find_documentation_links _ _ _ _) as [links|]; simpl;
    [|done].
  by apply docs_for_each_erase.
Qed.

(** The URLs that a call processes are pairwise distinct, were not
    visited before, and are what the call adds to the visited set. *)
Lemma docs_scrape_levels_processed W levels url output_file st :
  let st' := DocsScraper.final (DocsScraper.scrape_levels W levels url output_file st) in
  ∃ new,
    Invocation.processed (DocsScraper.visited_urls st) (DocsScraper.visited_urls st')
      (DocsScraper.fetched st) (DocsScraper.fetched st') new.
Proof.
  revert url st. induction levels as [|levels IH]; intros url st; simpl.
  { exists []. apply processed_refl. }
  destruct (DocsScraper.clean_url url) as [clean|]; simpl;
    [|exists []; apply processed_refl].
  case_bool_decide as Hv; simpl; [exists []; apply processed_refl|].
  set (st1 := DocsScraper.mkState ({[clean]} ∪ DocsScraper.visited_urls st)
                (DocsScraper.files st) (DocsScraper.fetched st ++ [clean])).
  assert (Invocation.processed (DocsScraper.visited_urls st)
            (DocsScraper.visited_urls st1) (DocsScraper.fetched st)
            (DocsScraper.fetched st1) [clean]) as H1 by by apply processed_one.
  destruct (DocsScraper.get_page_content W clean) as [html|]; simpl;
    [|by exists [clean]].
  destruct (PyStr.nonempty html); simpl; [|by exists [clean]].
  set (st2 := if _ && _ then _ else st1).
  assert (Invocation.processed (DocsScraper.visited_urls st)
            (DocsScraper.visited_urls st2) (DocsScraper.fetched st)
            (DocsScraper.fetched st2) [clean]) as H2.
  { unfold st2. by destruct (_ && _). }
  destruct (DocsScraper.find_documentation_links _ _ _ _) as [links|]; simpl;
    [|by exists [clean]].
  apply (for_each_final
           (λ st', ∃ new,
              Invocation.processed (DocsScraper.visited_urls st)
                (DocsScraper.visited_urls st') (DocsScraper.fetched st)
                (DocsScraper.fetched st') new)); [|by exists [clean]].
  intros link st' [new Hnew]. destruct (IH link st') as [new' Hnew'].
  exists (new ++ new'). by eapply processed_trans.
Qed.

(** On a scraper that has visited a page, every URL processed is
    requested once. *)
Lemma docs_requests_later W levels url output_file st log :
  DocsScraper.visited_urls st ≠ ∅ →
  let r := DocsRequests.scrape_levels W levels url output_file st log in
  DocsScraper.visited_urls st ⊆ DocsScraper.visited_urls (DocsScraper.final r.1) ∧
  ∃ new, DocsScraper.fetched (DocsScraper.final r.1) = DocsScraper.fetched st ++ new ∧
         r.2 = log ++ new.
Proof.
  revert url st log. induction levels as [|levels IH]; intros url st log Hne; simpl.
  { split; [done|]. exists []. by rewrite !app_nil_r. }
  destruct (DocsScraper.clean_url url) as [clean|]; simpl.
  2: { split; [done|]. exists []. by rewrite !app_nil_r. }
  case_bool_decide as Hv; simpl.
  { split; [done|]. exists []. by rewrite !app_nil_r. }
  rewrite bool_decide_eq_false_2.
  2: { rewrite size_union by set_solver. rewrite size_singleton.
       assert (size (DocsScraper.visited_urls st) ≠ 0); [|lia].
       by intros ?%size_empty_inv%leibniz_equiv. }
  destruct (DocsScraper.get_page_content W clean) as [html|]; simpl.
  2: { split; [set_solver|]. by exists [clean]. }
  destruct (PyStr.nonempty html); simpl.
  2: { split; [set_solver|]. by exists [clean]. }
  set (st2 := if _ && _ then _ else _).
  assert (DocsScraper.visited_urls st2 = {[clean]} ∪ DocsScraper.visited_urls st ∧
          DocsScraper.fetched st2 = DocsScraper.fetched st ++ [clean]) as [Ev Ef].
  { unfold st2. by destruct (_ && _). }
  destruct (DocsScraper.find_documentation_links _ _ _ _) as [links|]; simpl.
  2: { rewrite Ev, Ef. split; [set_solver|]. by exists [clean]. }
  apply (docs_for_each_log
           (λ st' log',
              DocsScraper.visited_urls st ⊆ DocsScraper.visited_urls st' ∧
              ∃ new, DocsScraper.fetched st' = DocsScraper.fetched st ++ new ∧
                     log' = log ++ new)).
  - intros link st' log' (Hsub & new & Ef' & ->).
    destruct (IH link st' (log ++ new)) as (Hsub' & new' & Ef'' & El'').
    { set_solver. }
    split; [set_solver|]. exists (new ++ new').
    rewrite Ef'', El'', Ef'. by rewrite !(assoc_L (++)).
  - rewrite Ev, Ef. split; [set_solver|]. by exists [clean].
Qed.

(** On a scraper that has visited nothing, the first URL processed is
    requested twice, every other one once. *)
Lemma docs_requests_first W levels url output_file st log :
  DocsScraper.visited_urls st = ∅ →
  let r := DocsRequests.scrape_levels W levels url output_file st log in
  ∃ new, DocsScraper.fetched (DocsScraper.final r.1) = DocsScraper.fetched st ++ new ∧
         r.2 = log ++ match new with
                      | [] => []
                      | first :: rest => first :: first :: rest
                      end.
Proof.
  intros He. destruct levels as [|levels]; simpl.
  { exists []. by rewrite !app_nil_r. }
  destruct (DocsScraper.clean_url url) as [clean|]; simpl.
  2: { exists []. by rewrite !app_nil_r. }
  rewrite He. rewrite bool_decide_eq_false_2 by set_solver. simpl.
  assert (size ({[clean]} ∪ (∅ : gset string)) = 1) as Hsz.
  { rewrite (right_id_L (∅ : gset string) (∪)). apply size_singleton. }
  rewrite bool_decide_eq_true_2 by exact Hsz.
  unfold DocsRequests.analyze_page_structure.
  destruct (DocsScraper.get_page_content W clean) as [html|]; simpl.
  2: { exists [clean]. by rewrite <- (assoc_L (++)). }
  destruct (PyStr.nonempty html); simpl.
  2: { exists [clean]. by rewrite <- (assoc_L (++)). }
  set (st2 := if _ && _ then _ else _).
  assert (DocsScraper.visited_urls st2 = {[clean]} ∪ ∅ ∧
          DocsScraper.fetched st2 = DocsScraper.fetched st ++ [clean]) as [Ev Ef].
  { unfold st2. by destruct (_ && _). }
  destruct (DocsScraper.find_documentation_links _ _ _ _) as [links|]; simpl.
  2: { rewrite Ef. exists [clean]. by rewrite <- (assoc_L (++)). }
  destruct (docs_for_each_log
           (λ st' log',
              {[clean]} ⊆ DocsScraper.visited_urls st' ∧
              ∃ new, DocsScraper.fetched st' = DocsScraper.fetched st ++ new ∧
                     log' = log ++ match new with
                                   | [] => []
                                   | first :: rest => first :: first :: rest
                                   end ∧
                     new ≠ [])
           (λ link st log,
              DocsRequests.scrape_levels W levels link output_file st log)
           (DocsScraper.sorted links) st2 ((log ++ [clean]) ++ [clean]))
    as (_ & new & Ef' & El' & _); [| |by exists new].
  - intros link st' log' (Hsub & new & Ef' & -> & Hnew).
    destruct (docs_requests_later W levels link output_file st'
                (log ++ match new with
                        | [] => []
                        | first :: rest => first :: first :: rest
                        end)) as (Hsub' & new' & Ef'' & El'').
    { set_solver. }
    split; [set_solver|]. exists (new ++ new').
    rewrite Ef'', El'', Ef'. destruct new as [|first rest]; [done|].
    split_and!; [by rewrite !(assoc_L (++))|by rewrite <- !(assoc_L (++))|done].
  - rewrite Ev, Ef. split; [set_solver|]. exists [clean].
    split_and!; [done|by rewrite <- (assoc_L (++))|done].
Qed.

(** *** The browser-driven scraper *)

Lemma selenium_processed_rtc W max_pages cfg0 cfg :
  is_Some (SeleniumScraper.driver cfg0.2) →
  rtc (SeleniumScraper.step W max_pages) cfg0 cfg →
  is_Some (SeleniumScraper.driver cfg.2) ∧
  (∃ new,
     Invocation.processed
       (SeleniumScraper.visited_urls cfg0.2) (SeleniumScraper.visited_urls cfg.2)
       (SeleniumScraper.extracted cfg0.2) (SeleniumScraper.extracted cfg.2) new) ∧
  (Z.of_nat (size (SeleniumScraper.visited_urls cfg.2))
   ≤ Z.max max_pages (Z.of_nat (size (SeleniumScraper.visited_urls cfg0.2))))%Z.
Proof.
  intros Hd0 Hrtc. revert cfg Hrtc. apply rtc_ind_r.
  { split_and!; [done|exists []; apply processed_refl|lia]. }
  intros cfg1 cfg2 _ Hstep (Hd & [new Hnew] & Hsz).
  destruct Hstep as [[urls st] url [_ Hlt] Hin]. cbn [fst snd] in *.
  destruct (decide (url ∈ SeleniumScraper.visited_urls st)) as [Hv|Hv].
  { rewrite iteration_skip by done. cbn [snd].
    split_and!; [done|by exists new|done]. }
  rewrite iteration_fresh by done. cbn [snd].
  destruct (after_extract_fields W url st) as (Ev & _ & Hdrv & _).
  destruct (Hdrv Hd) as [Hd' Ee].
  cbn [SeleniumScraper.sleep SeleniumScraper.visited_urls
       SeleniumScraper.extracted SeleniumScraper.driver].
  rewrite Ev, Ee. split_and!; [done| |].
  - exists (new ++ [url]). eapply processed_trans; [exact Hnew|].
    by apply processed_one.
  - rewrite size_union by set_solver. rewrite size_singleton. lia.
Qed.

End InvocationFacts.

(* ===================================================================== *)
(** ** The crawl controller: claims C4 to C8 and C10 *)
(* ===================================================================== *)

Section Controller.
Import PyStr UrlParse PyValue Samples.

Local Ltac by_compute :=
  match goal with
  | |- ?P => apply (@bool_decide_unpack P _); vm_compute; exact I
  end.

(** The completed run of the browser-driven scraper on the sample site,
    [pop()] returning the least URL. *)
Lemma sample_run :
  SeleniumScraper.scrape_site selenium_world 10 SeleniumScraper.init
    (SeleniumScraper.run selenium_world pop_least 10 10
       ({[SeleniumScraper.base_url]},
        SeleniumScraper.set_driver SeleniumScraper.blank_page
          SeleniumScraper.init)).2.
Proof.
  eexists. split; [reflexivity|].
  apply run_loop.
  - apply pop_least_Some.
  - apply pop_least_None.
  - intros [Hne _]. apply Hne. by vm_compute.
Qed.

(** C4, as stated, fails.  The page cap does not bound the visited set
    of a scraper that is used again: after a run that has visited four
    pages, a completed [scrape_site(max_pages=2)] on the same scraper
    leaves four visited URLs.  Nor does it bound it when [max_pages] is
    negative: the run ends with no visited URL, which is more than
    [-1].  And the docs scraper, which has no page cap, requests the
    first page of a new scraper twice: [analyze_page_structure] fetches
    it once more. *)
Lemma C4_cap_exceeded_and_seed_requested_twice :
  let s1 :=
    (SeleniumScraper.run selenium_world pop_least 10 10
       ({[SeleniumScraper.base_url]},
        SeleniumScraper.set_driver SeleniumScraper.blank_page
          SeleniumScraper.init)).2 in
  SeleniumScraper.scrape_site selenium_world 10 SeleniumScraper.init s1 ∧
  size (SeleniumScraper.visited_urls s1) = 4 ∧
  (∃ s2, SeleniumScraper.scrape_site selenium_world 2 s1 s2 ∧
         size (SeleniumScraper.visited_urls s2) = 4) ∧
  (∃ s, SeleniumScraper.scrape_site selenium_world (-1) SeleniumScraper.init s ∧
        size (SeleniumScraper.visited_urls s) = 0) ∧
  (DocsRequests.scrape_all (docs_world small_site hub_page) seed "out.md"
     DocsScraper.init []).2
  = [seed; seed; page_a_url; page_b_url].
Proof.
  intros s1. split_and!.
  - apply sample_run.
  - by vm_compute.
  - eexists. split.
    + eexists. split; [reflexivity|]. apply SeleniumScraper.loop_exit.
      intros [_ Hlt]. by vm_compute in Hlt.
    + by vm_compute.
  - eexists. split.
    + eexists. split; [reflexivity|]. apply SeleniumScraper.loop_exit.
      intros [_ Hlt]. by vm_compute in Hlt.
    + by vm_compute.
  - by vm_compute.
Qed.

(** C4, amended.  Within one invocation no URL is processed twice, and
    none that was visited before the invocation is processed again: the
    URLs that it processes are pairwise distinct, were not visited before,
    and are what it adds to the visited set.

    The docs scraper has no page cap.  It requests every URL that it
    processes once, except the first URL of a scraper that has visited
    nothing, which it requests twice ([analyze_page_structure]).

    In the browser-driven scraper the visited set holds, at the head of
    the loop after any number of iterations and when the run is
    completed, at most [max_pages] URLs or as many as it held when the
    invocation began, whichever is more.  So on a new scraper with
    [max_pages >= 0] the URLs processed are pairwise distinct and are
    exactly the members of the visited set, and there are at most
    [max_pages] of them. *)
Theorem C4_each_url_once_within_page_cap :
  (∀ W base_url output_file st,
     let r := DocsRequests.scrape_all W base_url output_file st [] in
     let st' := DocsScraper.final r.1 in
     r.1 = DocsScraper.scrape_all W base_url output_file st ∧
     ∃ new,
       Invocation.processed
         (DocsScraper.visited_urls st) (DocsScraper.visited_urls st')
         (DocsScraper.fetched st) (DocsScraper.fetched st') new ∧
       (DocsScraper.visited_urls st ≠ ∅ → r.2 = new) ∧
       (DocsScraper.visited_urls st = ∅ →
        r.2 = match new with
              | [] => []
              | first :: rest => first :: first :: rest
              end)) ∧
  (∀ W max_pages st st0,
     SeleniumScraper.start_driver W st = Some st0 →
     ∀ st',
       (∃ cfg, rtc (SeleniumScraper.step W max_pages)
                 ({[SeleniumScraper.base_url]}, st0) cfg ∧ cfg.2 = st') ∨
       SeleniumScraper.loop W max_pages ({[SeleniumScraper.base_url]}, st0) st' →
       (∃ new,
          Invocation.processed
            (SeleniumScraper.visited_urls st) (SeleniumScraper.visited_urls st')
            (SeleniumScraper.extracted st) (SeleniumScraper.extracted st') new) ∧
       (Z.of_nat (size (SeleniumScraper.visited_urls st'))
        ≤ Z.max max_pages (Z.of_nat (size (SeleniumScraper.visited_urls st))))%Z) ∧
  (∀ W max_pages st0,
     (0 ≤ max_pages)%Z →
     SeleniumScraper.start_driver W SeleniumScraper.init = Some st0 →
     ∀ st',
       (∃ cfg, rtc (SeleniumScraper.step W max_pages)
                 ({[SeleniumScraper.base_url]}, st0) cfg ∧ cfg.2 = st') ∨
       SeleniumScraper.loop W max_pages ({[SeleniumScraper.base_url]}, st0) st' →
       NoDup (SeleniumScraper.extracted st') ∧
       (∀ x, x ∈ SeleniumScraper.extracted st'
             ↔ x ∈ SeleniumScraper.visited_urls st') ∧
       (Z.of_nat (size (SeleniumScraper.visited_urls st')) ≤ max_pages)%Z).
Proof.
  assert (∀ W max_pages st st0 st',
            SeleniumScraper.start_driver W st = Some st0 →
            (∃ cfg, rtc (SeleniumScraper.step W max_pages)
                      ({[SeleniumScraper.base_url]}, st0) cfg ∧ cfg.2 = st') ∨
            SeleniumScraper.loop W max_pages ({[SeleniumScraper.base_url]}, st0) st' →
            (∃ new,
               Invocation.processed
                 (SeleniumScraper.visited_urls st) (SeleniumScraper.visited_urls st')
                 (SeleniumScraper.extracted st) (SeleniumScraper.extracted st') new) ∧
            (Z.of_nat (size (SeleniumScraper.visited_urls st'))
             ≤ Z.max max_pages (Z.of_nat (size (SeleniumScraper.visited_urls st))))%Z)
    as Hsel.
  { intros W max_pages st st0 st' Hstart Hrun.
    unfold SeleniumScraper.start_driver in Hstart.
    destruct (SeleniumScraper.chrome_starts W); simplify_eq/=.
    assert (∃ cfg, rtc (SeleniumScraper.step W max_pages)
                     ({[SeleniumScraper.base_url]},
                      SeleniumScraper.mkState (SeleniumScraper.visited_urls st)
                        (SeleniumScraper.failed_urls st)
                        (SeleniumScraper.content_data st)
                        (Some SeleniumScraper.blank_page)
                        (SeleniumScraper.clock st) (SeleniumScraper.extracted st))
                     cfg ∧ cfg.2 = st') as (cfg & Hrtc & <-).
    { destruct Hrun as [?|(cfg & ? & ? & _)%loop_rtc]; [done|by exists cfg]. }
    apply selenium_processed_rtc in Hrtc as (_ & ? & ?); [done|by eexists]. }
  split_and!.
  - intros W base_url output_file st. cbv zeta.
    unfold DocsRequests.scrape_all, DocsRequests.scrape_recursive.
    set (st1 := DocsScraper.mkState _ _ _).
    rewrite docs_scrape_levels_erase. split; [done|].
    destruct (docs_scrape_levels_processed W (Z.to_nat (5 + 1 - 0)) base_url
                output_file st1) as [new Hnew].
    exists new. split; [exact Hnew|].
    destruct Hnew as (Ef & _).
    split.
    + intros Hne.
      destruct (docs_requests_later W (Z.to_nat (5 + 1 - 0)) base_url output_file
                  st1 [] Hne) as (_ & new' & Ef' & ->).
      rewrite docs_scrape_levels_erase in Ef'. rewrite Ef' in Ef.
      by apply (inj (app _)) in Ef as ->.
    + intros He.
      destruct (docs_requests_first W (Z.to_nat (5 + 1 - 0)) base_url output_file
                  st1 [] He) as (new' & Ef' & ->).
      rewrite docs_scrape_levels_erase in Ef'. rewrite Ef' in Ef.
      by apply (inj (app _)) in Ef as ->.
  - intros W max_pages st st0 Hstart st' Hrun. by eapply Hsel.
  - intros W max_pages st0 Hmax Hstart st' Hrun.
    destruct (Hsel W max_pages SeleniumScraper.init st0 st' Hstart Hrun)
      as [(new & Ee & Hnd & _ & Ev) Hsz].
    cbn [SeleniumScraper.init SeleniumScraper.visited_urls
         SeleniumScraper.extracted app] in Ee, Ev, Hsz.
    rewrite size_empty in Hsz. rewrite Ee. split_and!; [done| |lia].
    intros x. rewrite Ev. set_solver.
Qed.

Lemma C4_each_url_once_within_page_cap_witness :
  let st' :=
    (SeleniumScraper.run selenium_world pop_least 10 10
       ({[SeleniumScraper.base_url]},
        SeleniumScraper.set_driver SeleniumScraper.blank_page
          SeleniumScraper.init)).2 in
  length (SeleniumScraper.extracted st') = 4 ∧
  NoDup (SeleniumScraper.extracted st') ∧
  (∀ x, x ∈ SeleniumScraper.extracted st'
        ↔ x ∈ SeleniumScraper.visited_urls st') ∧
  (Z.of_nat (size (SeleniumScraper.visited_urls st')) ≤ 10)%Z.
Proof.
  intros st'. split; [reflexivity|].
  apply (proj2 (proj2 C4_each_url_once_within_page_cap) selenium_world 10%Z
           (SeleniumScraper.set_driver SeleniumScraper.blank_page
              SeleniumScraper.init)).
  - lia.
  - reflexivity.
  - right. destruct sample_run as (st1 & Hs & Hl). by injection Hs as <-.
Defined.

(** C10: in the browser-driven scraper every failed URL is a visited
    URL, at the head of the loop after any number of iterations, after
    [visited_urls.add(url)], after [extract_page_content(url)], and when
    [scrape_site] has returned. *)
Theorem C10_failed_subset_of_visited (W : SeleniumScraper.World)
    (max_pages : Z) (st st0 : SeleniumScraper.state) :
  SeleniumScraper.failed_urls st ⊆ SeleniumScraper.visited_urls st →
  SeleniumScraper.start_driver W st = Some st0 →
  (∀ cfg,
     rtc (SeleniumScraper.step W max_pages) ({[SeleniumScraper.base_url]}, st0) cfg →
     SeleniumScraper.failed_urls cfg.2 ⊆ SeleniumScraper.visited_urls cfg.2 ∧
     ∀ url,
       SeleniumScraper.failed_urls (SeleniumScraper.after_add url cfg.2)
       ⊆ SeleniumScraper.visited_urls (SeleniumScraper.after_add url cfg.2) ∧
       SeleniumScraper.failed_urls (SeleniumScraper.after_extract W url cfg.2)
       ⊆ SeleniumScraper.visited_urls (SeleniumScraper.after_extract W url cfg.2)) ∧
  (∀ st',
     SeleniumScraper.loop W max_pages ({[SeleniumScraper.base_url]}, st0) st' →
     SeleniumScraper.failed_urls st' ⊆ SeleniumScraper.visited_urls st').
Proof.
  intros Hst Hstart.
  assert (SeleniumScraper.failed_visited st0) as H0.
  { unfold SeleniumScraper.start_driver in Hstart.
    by destruct (SeleniumScraper.chrome_starts W); simplify_eq/=. }
  assert (∀ cfg,
    rtc (SeleniumScraper.step W max_pages) ({[SeleniumScraper.base_url]}, st0) cfg →
    SeleniumScraper.failed_visited cfg.2) as Hinv.
  { intros cfg Hrtc. by apply (failed_visited_rtc _ _ _ _ Hrtc). }
  split.
  - intros cfg Hrtc. specialize (Hinv cfg Hrtc). split; [done|].
    intros url. split.
    + by apply failed_visited_after_add.
    + by apply failed_visited_after_extract.
  - intros st' (cfg' & Hrtc & <- & _)%loop_rtc. by apply Hinv.
Qed.

Lemma C10_failed_subset_of_visited_witness :
  let st0 := SeleniumScraper.set_driver SeleniumScraper.blank_page
               SeleniumScraper.init in
  let st' :=
    (SeleniumScraper.run selenium_world pop_least 10 10
       ({[SeleniumScraper.base_url]}, st0)).2 in
  page_a_url ∈ SeleniumScraper.failed_urls st' ∧
  SeleniumScraper.failed_urls st' ⊆ SeleniumScraper.visited_urls st'.
Proof.
  intros st0 st'. split; [by_compute|].
  apply (proj2 (C10_failed_subset_of_visited selenium_world 10
                  SeleniumScraper.init st0 (reflexivity _) eq_refl)).
  destruct sample_run as (st1 & Hs & Hl). by injection Hs as <-.
Defined.


(** C5, as stated, fails in the browser-driven scraper: after the load of
    a page has failed, the controller still collects the links of the
    page the browser shows.  On the sample site the load of page [a]
    raises with the page partly built; page [a] is recorded as failed,
    and the link to page [b] found in it is put on the frontier and later
    visited. *)
Lemma C5_links_followed_after_failed_load :
  let st0 := SeleniumScraper.set_driver SeleniumScraper.blank_page
               SeleniumScraper.init in
  let cfg1 := SeleniumScraper.iteration selenium_world seed ({[seed]}, st0) in
  let cfg2 := SeleniumScraper.iteration selenium_world page_a_url cfg1 in
  let st' := (SeleniumScraper.run selenium_world pop_least 10 10
                ({[seed]}, st0)).2 in
  SeleniumScraper.driver_get selenium_world page_a_url
  = SeleniumScraper.LoadError (Some (browser_page page_a_url [] [page_b_url])) ∧
  page_a_url ∈ cfg1.1 ∧ (page_b_url ∉ cfg1.1) ∧
  page_a_url ∈ SeleniumScraper.failed_urls cfg2.2 ∧
  page_b_url ∈ cfg2.1 ∧
  page_b_url ∈ SeleniumScraper.visited_urls st'.
Proof. intros. split_and!; [reflexivity|by_compute..]. Qed.

(** C5, amended: a failed fetch never aborts the run and never yields a
    Document.  In the browser-driven scraper the URL is recorded in
    [failed_urls], and the iteration goes on to collect the links of the
    page the browser then shows before the next URL is popped.  In the
    docs scraper, which keeps no set of failed URLs, the URL is only added
    to the visited set: nothing is written, no link of it is followed, and
    the call returns. *)
Theorem C5_failed_fetch_is_isolated :
  (∀ W url urls st shown now_shown,
     SeleniumScraper.driver st = Some shown →
     url ∉ SeleniumScraper.visited_urls st →
     SeleniumScraper.driver_get W url = SeleniumScraper.LoadError now_shown →
     let cfg' := SeleniumScraper.iteration W url (urls, st) in
     SeleniumScraper.failed_urls cfg'.2 = {[url]} ∪ SeleniumScraper.failed_urls st ∧
     SeleniumScraper.content_data cfg'.2 = SeleniumScraper.content_data st ∧
     SeleniumScraper.visited_urls cfg'.2 = {[url]} ∪ SeleniumScraper.visited_urls st ∧
     cfg'.1 = (urls ∖ {[url]})
              ∪ (SeleniumScraper.links_of_page
                   ({[url]} ∪ SeleniumScraper.visited_urls st)
                   (default shown now_shown)
                 ∖ ({[url]} ∪ SeleniumScraper.visited_urls st))) ∧
  (∀ W levels url output_file st clean,
     DocsScraper.clean_url url = Some clean →
     clean ∉ DocsScraper.visited_urls st →
     DocsScraper.get_page_content W clean = None →
     DocsScraper.scrape_levels W (S levels) url output_file st
     = DocsScraper.Returned
         (DocsScraper.mkState ({[clean]} ∪ DocsScraper.visited_urls st)
            (DocsScraper.files st) (DocsScraper.fetched st ++ [clean]))).
Proof.
  split.
  - intros W url urls st shown now_shown Hd Hv Hg cfg'. unfold cfg'.
    rewrite iteration_fresh by done.
    unfold SeleniumScraper.after_extract, SeleniumScraper.extract_page_content.
    simpl. rewrite Hd, Hg. simpl. done.
  - intros. by apply scrape_levels_fetch_failed.
Qed.

Lemma C5_failed_fetch_is_isolated_witness :
  let st0 := SeleniumScraper.set_driver SeleniumScraper.blank_page
               SeleniumScraper.init in
  let cfg1 := SeleniumScraper.iteration selenium_world seed ({[seed]}, st0) in
  let cfg2 := SeleniumScraper.iteration selenium_world page_a_url cfg1 in
  SeleniumScraper.failed_urls cfg2.2
  = {[page_a_url]} ∪ SeleniumScraper.failed_urls cfg1.2 ∧
  SeleniumScraper.content_data cfg2.2 = SeleniumScraper.content_data cfg1.2.
Proof.
  intros st0 cfg1 cfg2.
  destruct (proj1 C5_failed_fetch_is_isolated selenium_world page_a_url
              cfg1.1 cfg1.2
              (browser_page seed [times 120 "x"] [gif_url; page_a_url])
              (Some (browser_page page_a_url [] [page_b_url])))
    as (Hf & Hc & _).
  - reflexivity.
  - by_compute.
  - reflexivity.
  - split; [exact Hf|exact Hc].
Defined.

(** C6 on the code: the link filter of the browser-driven scraper lists
    five extensions only.  A link that ends with [.gif] (or [.dmg]),
    which the docs scraper rejects and never visits
    ([docs_visited_exclude_extensions]), passes it, is put on the frontier
    and is visited. *)
Theorem C6_selenium_filter_misses_gif_and_dmg :
  let st0 := SeleniumScraper.set_driver SeleniumScraper.blank_page
               SeleniumScraper.init in
  let cfg1 := SeleniumScraper.iteration selenium_world seed ({[seed]}, st0) in
  endswith gif_url ".gif" = true ∧
  DocsScraper.accepts ∅ gif_url = false ∧
  SeleniumScraper.accepts ∅ gif_url = true ∧
  SeleniumScraper.accepts ∅
    "https://developer.ninjatrader.com/docs/desktop/setup.dmg" = true ∧
  gif_url ∈ cfg1.1 ∧
  ∃ st', SeleniumScraper.scrape_site selenium_world 10 SeleniumScraper.init st' ∧
         gif_url ∈ SeleniumScraper.visited_urls st'.
Proof.
  intros. split_and!; [by vm_compute..|by_compute|].
  eexists. split; [apply sample_run|by_compute].
Qed.


(** ** The JSON records: claim C7 *)

Lemma extract_page_content_keys W url st c :
  (SeleniumScraper.extract_page_content W url st).2 = Some c →
  keys c = SeleniumScraper.record_keys.
Proof.
  unfold SeleniumScraper.extract_page_content.
  destruct (SeleniumScraper.driver st); simpl; [|done].
  destruct (SeleniumScraper.driver_get W url); simpl; [|done].
  destruct (100 <? _); simpl; [|done]. by intros [= <-].
Qed.

Lemma selenium_record_keys_rtc W max_pages cfg cfg' :
  rtc (SeleniumScraper.step W max_pages) cfg cfg' →
  Forall (λ d, keys d = SeleniumScraper.record_keys) (SeleniumScraper.content_data cfg.2) →
  Forall (λ d, keys d = SeleniumScraper.record_keys) (SeleniumScraper.content_data cfg'.2).
Proof.
  induction 1 as [|cfg cfg1 cfg2 Hstep _ IH]; [done|].
  intros H. apply IH. destruct Hstep as [[urls st] url _ _]. simpl in *.
  unfold SeleniumScraper.iteration. case_bool_decide; simpl; [done|].
  destruct (after_extract_fields W url st) as (_ & _ & _ & [-> | (c & Hc & ->)]);
    [done|].
  apply Forall_app. split; [done|]. constructor; [|done].
  by apply extract_page_content_keys in Hc.
Qed.

Lemma extract_documentation_content_keys W url visited c :
  (ApiScraper.extract_documentation_content W url visited).2 = Some c →
  keys c = ApiScraper.record_keys.
Proof.
  unfold ApiScraper.extract_documentation_content.
  case_bool_decide; simpl; [done|].
  destruct (ApiScraper.session_get W url) as [[status text]|]; simpl; [|done].
  destruct (ApiScraper.choose_content _) as [p|]; simpl; [|done].
  destruct (Bs4.get p _); simpl; [|done]. by intros [= <-].
Qed.

Lemma api_collect_docs_keys W urls visited all_docs :
  Forall (λ d, keys d = ApiScraper.record_keys) all_docs →
  Forall (λ d, keys d = ApiScraper.record_keys)
    (ApiScraper.collect_docs W urls visited all_docs).2.
Proof.
  revert visited all_docs.
  induction urls as [|url urls IH]; intros visited all_docs Hall; simpl; [done|].
  destruct (isin "/docs/desktop" url); [|by apply IH].
  pose proof (extract_documentation_content_keys W url visited) as Hk.
  destruct (ApiScraper.extract_documentation_content W url visited)
    as [visited' [c|]]; [|by apply IH].
  apply IH. destruct (100 <? _); [|done].
  apply Forall_app. split; [done|]. constructor; [|done]. by apply Hk.
Qed.

(** C7, as stated, fails: no scraper writes the five keys named.  The
    records of the browser-driven scraper hold the text under the key
    [content], not [text]; those of the API scraper have no
    [scraped_at]. *)
Lemma C7_written_keys_differ :
  let st' :=
    (SeleniumScraper.run selenium_world pop_least 10 10
       ({[SeleniumScraper.base_url]},
        SeleniumScraper.set_driver SeleniumScraper.blank_page
          SeleniumScraper.init)).2 in
  match SeleniumScraper.save_results_json st' with
  | VList docs => keys <$> docs
  | _ => []
  end = [["url"; "title"; "content"; "code_examples"; "scraped_at"]] ∧
  match (ApiScraper.save_documentation api_world ∅).2 with
  | VList docs => keys <$> docs
  | _ => []
  end = [["url"; "title"; "text"; "code_examples"]].
Proof. by vm_compute. Qed.

(** C7, amended: the JSON file of the browser-driven scraper is the list
    of the records in [content_data], each with exactly the keys [url],
    [title], [content], [code_examples], [scraped_at] in that order; the
    JSON file of the API scraper is a list of records each with exactly
    the keys [url], [title], [text], [code_examples] in that order. *)
Theorem C7_json_records_and_keys :
  (∀ W max_pages st',
     SeleniumScraper.scrape_site W max_pages SeleniumScraper.init st' →
     SeleniumScraper.save_results_json st'
     = VList (SeleniumScraper.content_data st') ∧
     Forall (λ d, keys d = ["url"; "title"; "content"; "code_examples"; "scraped_at"])
       (SeleniumScraper.content_data st')) ∧
  (∀ W visited,
     ∃ docs,
       (ApiScraper.save_documentation W visited).2 = VList docs ∧
       Forall (λ d, keys d = ["url"; "title"; "text"; "code_examples"]) docs).
Proof.
  split.
  - intros W max_pages st' (st0 & Hstart & Hloop). split; [done|].
    unfold SeleniumScraper.start_driver in Hstart.
    destruct (SeleniumScraper.chrome_starts W); simplify_eq/=.
    apply loop_rtc in Hloop as (cfg' & Hrtc & <- & _).
    by apply (selenium_record_keys_rtc _ _ _ _ Hrtc).
  - intros W visited. unfold ApiScraper.save_documentation.
    pose proof (api_collect_docs_keys W (take 50 (ApiScraper.scrape_from_sitemap W))
                  visited [] (Forall_nil_2 _)) as H.
    destruct (ApiScraper.collect_docs _ _ _ _) as [v all_docs].
    simpl in *. by exists all_docs.
Qed.

Lemma C7_json_records_and_keys_witness :
  let st' :=
    (SeleniumScraper.run selenium_world pop_least 10 10
       ({[SeleniumScraper.base_url]},
        SeleniumScraper.set_driver SeleniumScraper.blank_page
          SeleniumScraper.init)).2 in
  length (SeleniumScraper.content_data st') = 1 ∧
  Forall (λ d, keys d = ["url"; "title"; "content"; "code_examples"; "scraped_at"])
    (SeleniumScraper.content_data st').
Proof.
  intros st'. split; [reflexivity|].
  exact (proj2 (proj1 C7_json_records_and_keys selenium_world 10%Z st' sample_run)).
Defined.

(** ** Fresh state: claim C8 *)

Lemma step_extracted_prefix W max_pages cfg cfg' :
  SeleniumScraper.step W max_pages cfg cfg' →
  SeleniumScraper.extracted cfg.2 `prefix_of` SeleniumScraper.extracted cfg'.2.
Proof.
  intros [[urls st] url _ _]. simpl.
  unfold SeleniumScraper.iteration. case_bool_decide; simpl; [done|].
  unfold SeleniumScraper.after_extract.
  pose proof (extract_page_content_fields W url (SeleniumScraper.after_add url st))
    as (_ & _ & _ & Hs & Hn).
  destruct (SeleniumScraper.driver (SeleniumScraper.after_add url st)) eqn:Ed.
  - destruct Hs as [_ He]; [by eexists|].
    destruct (SeleniumScraper.extract_page_content _ _ _) as [st' [c|]];
      simpl in *; rewrite He; by apply prefix_app_r.
  - specialize (Hn eq_refl).
    destruct (SeleniumScraper.extract_page_content _ _ _) as [st' [c|]];
      simpl in *; by subst st'.
Qed.

Lemma rtc_extracted_prefix W max_pages cfg cfg' :
  rtc (SeleniumScraper.step W max_pages) cfg cfg' →
  SeleniumScraper.extracted cfg.2 `prefix_of` SeleniumScraper.extracted cfg'.2.
Proof.
  induction 1 as [|cfg cfg1 cfg2 Hstep _ IH]; [done|].
  etrans; [|exact IH]. by eapply step_extracted_prefix.
Qed.

(** C8, as stated, fails: the visited set is a field of the scraper that
    only the constructor initialises.  A second [scrape_all] on the same
    docs scraper starts with the seed already visited: it fetches
    nothing, and the output file, which the first invocation filled, is
    left with the header only.  A second [scrape_site] on the same
    browser-driven scraper extracts nothing either. *)
Lemma C8_second_invocation_depends_on_first :
  let W := docs_world seed_only (main_page 150) in
  let st1 := DocsScraper.final (DocsScraper.scrape_all W seed "out.md" DocsScraper.init) in
  let st2 := DocsScraper.final (DocsScraper.scrape_all W seed "out.md" st1) in
  let s0 := SeleniumScraper.set_driver SeleniumScraper.blank_page SeleniumScraper.init in
  let s1 := (SeleniumScraper.run selenium_world pop_least 10 10 ({[seed]}, s0)).2 in
  let s2 := (SeleniumScraper.run selenium_world pop_least 10 10 ({[seed]}, s1)).2 in
  DocsScraper.visited_urls st1 = {[seed]} ∧
  DocsScraper.fetched st1 = [seed] ∧
  DocsScraper.fetched st2 = [seed] ∧
  String.length <$> (DocsScraper.files st1 !! "out.md") = Some 336 ∧
  String.length <$> (DocsScraper.files st2 !! "out.md") = Some 108 ∧
  length (SeleniumScraper.extracted s1) = 4 ∧
  SeleniumScraper.extracted s2 = SeleniumScraper.extracted s1.
Proof. by vm_compute. Qed.

(** C8, amended: a crawl on a new scraper begins with an empty visited
    set and processes the seed first.  The visited set is not reset
    between invocations: when the seed is already visited, a further
    [scrape_all] rewrites the header of the output file and returns
    without a fetch, and a further [scrape_site] returns with the visited
    set, the failed set, the records and the list of processed URLs as
    they were. *)
Theorem C8_fresh_first_run_and_persistent_state :
  DocsScraper.visited_urls DocsScraper.init = ∅ ∧
  SeleniumScraper.visited_urls SeleniumScraper.init = ∅ ∧
  (∀ W base_url output_file clean,
     DocsScraper.clean_url base_url = Some clean →
     ∃ rest,
       DocsScraper.fetched
         (DocsScraper.final
            (DocsScraper.scrape_all W base_url output_file DocsScraper.init))
       = clean :: rest) ∧
  (∀ W max_pages st',
     (0 < max_pages)%Z →
     SeleniumScraper.scrape_site W max_pages SeleniumScraper.init st' →
     ∃ rest, SeleniumScraper.extracted st' = SeleniumScraper.base_url :: rest) ∧
  (∀ W base_url output_file st clean,
     DocsScraper.clean_url base_url = Some clean →
     clean ∈ DocsScraper.visited_urls st →
     ∃ header,
       DocsScraper.scrape_all W base_url output_file st
       = DocsScraper.Returned
           (DocsScraper.mkState (DocsScraper.visited_urls st)
              (<[output_file := header]> (DocsScraper.files st))
              (DocsScraper.fetched st))) ∧
  (∀ W max_pages st st',
     SeleniumScraper.base_url ∈ SeleniumScraper.visited_urls st →
     SeleniumScraper.scrape_site W max_pages st st' →
     SeleniumScraper.visited_urls st' = SeleniumScraper.visited_urls st ∧
     SeleniumScraper.failed_urls st' = SeleniumScraper.failed_urls st ∧
     SeleniumScraper.content_data st' = SeleniumScraper.content_data st ∧
     SeleniumScraper.extracted st' = SeleniumScraper.extracted st).
Proof.
  split_and!; [done..| | | |].
  - (* docs, new scraper: the seed is fetched first *)
    intros W base_url output_file clean Hc.
    unfold DocsScraper.scrape_all, DocsScraper.scrape_recursive.
    change (Z.to_nat (5 + 1 - 0)) with 6.
    set (st := DocsScraper.mkState _ _ _).
    destruct (scrape_levels_fetches_first W 5 base_url output_file st clean)
      as [rest Hrest]; [done|set_solver|].
    by exists rest.
  - (* browser, new scraper: the seed is extracted first *)
    intros W max_pages st' Hmax (st0 & Hstart & Hloop).
    unfold SeleniumScraper.start_driver in Hstart.
    destruct (SeleniumScraper.chrome_starts W); simplify_eq/=.
    inversion Hloop as [cfg Hc|cfg cfg1 st1 Hstep Hloop1]; subst.
    { exfalso. apply Hc. split; [set_solver|].
      cbn [snd SeleniumScraper.visited_urls]. rewrite size_empty. lia. }
    inversion Hstep as [cfg url _ Hin]; subst. simpl in Hin.
    apply elem_of_singleton in Hin as ->.
    apply loop_rtc in Hloop1 as (cfg' & Hrtc & <- & _).
    apply rtc_extracted_prefix in Hrtc.
    rewrite iteration_fresh in Hrtc by set_solver. simpl in Hrtc.
    unfold SeleniumScraper.after_extract, SeleniumScraper.extract_page_content in Hrtc.
    simpl in Hrtc.
    destruct (SeleniumScraper.driver_get W SeleniumScraper.base_url);
      simpl in Hrtc.
    + destruct (100 <? _); simpl in Hrtc; destruct Hrtc as [rest ->]; by exists rest.
    + destruct Hrtc as [rest ->]. by exists rest.
  - (* docs, seed already visited *)
    intros W base_url output_file st clean Hc Hv. eexists.
    unfold DocsScraper.scrape_all, DocsScraper.scrape_recursive.
    by rewrite (scrape_levels_visited _ _ _ _ _ clean).
  - (* browser, seed already visited *)
    intros W max_pages st st' Hv (st0 & Hstart & Hloop).
    unfold SeleniumScraper.start_driver in Hstart.
    destruct (SeleniumScraper.chrome_starts W); simplify_eq/=.
    inversion Hloop as [cfg Hc|cfg cfg1 st1 Hstep Hloop1]; subst; [done|].
    inversion Hstep as [cfg url _ Hin]; subst. simpl in Hin.
    apply elem_of_singleton in Hin as ->.
    rewrite iteration_skip in Hloop1 by done.
    inversion Hloop1 as [cfg Hc|cfg cfg2 st2 Hstep2 Hloop2]; subst; [done|].
    inversion Hstep2 as [cfg url [Hne _] _]; subst. simpl in Hne. set_solver.
Qed.

Lemma C8_fresh_first_run_and_persistent_state_witness :
  let st' :=
    (SeleniumScraper.run selenium_world pop_least 10 10
       ({[SeleniumScraper.base_url]},
        SeleniumScraper.set_driver SeleniumScraper.blank_page
          SeleniumScraper.init)).2 in
  ∃ rest, SeleniumScraper.extracted st' = SeleniumScraper.base_url :: rest.
Proof.
  intros st'.
  destruct C8_fresh_first_run_and_persistent_state as (_ & _ & _ & H & _).
  apply (H selenium_world 10%Z st'); [lia|apply sample_run].
Defined.

End Controller.

(* ===================================================================== *)
(** ** Facts about documents *)
(* ===================================================================== *)

Section Bs4Facts.
Import PyStr Bs4 Bs4Walk.
Implicit Types (n c : node) (cs : list node) (p q : position)
  (group : list selector).


















End Bs4Facts.

(* ===================================================================== *)
(** ** The docs scraper: content selection *)
(* ===================================================================== *)

Section DocsContent.
Import PyStr UrlParse Bs4 Bs4Walk DocsScraper.
Implicit Types (W : World) (soup n : node) (p : position).


Lemma head_filter_None {A} (f : A → bool) (l : list A) :
  head (List.filter f l) = None → Forall (λ x, f x = false) l.
Proof.
  induction l as [|y l IH]; simpl; [constructor|].
  destruct (f y) eqn:Ey; simpl; [done|]. intros ?%IH. by constructor.
Qed.





End DocsContent.

(* ===================================================================== *)
(** ** The docs scraper: links, output file, depth *)
(* ===================================================================== *)

Section DocsCrawl.
Import PyStr UrlParse Bs4 DocsScraper DocsGraph.
Local Arguments String.append : simpl nomatch.
Implicit Types (W : World) (st : state) (url : string).









(** *** The output file *)







(** *** The depth limit *)






(** *** A link that cannot be parsed *)




End DocsCrawl.

(* ===================================================================== *)
(** ** The browser-driven scraper: content of a page *)
(* ===================================================================== *)

Section SeleniumContent.
Import PyStr UrlParse PyValue PyText PyRecord SeleniumScraper SeleniumReport.
Implicit Types (W : World) (st : state) (p : page) (url : string).







End SeleniumContent.

(* ===================================================================== *)
(** ** The browser-driven scraper: the loop of [scrape_site] *)
(* ===================================================================== *)

Section SeleniumCrawl.
Import PyStr UrlParse PyValue PyText PyRecord SeleniumScraper SeleniumReport.
Implicit Types (W : World) (st : state) (cfg : gset string * state)
  (url : string) (urls : gset string).


(** *** Termination *)



(** *** Invariants of the loop *)













(** *** The Markdown report *)






(** *** The file of failed URLs *)


(** *** The scope of the crawl *)





End SeleniumCrawl.

(* ===================================================================== *)
(** ** The API scraper *)
(* ===================================================================== *)

Section ApiFacts.
Import PyStr Bs4 Bs4Walk PyValue PyText PyRecord ApiScraper ApiReport.
Local Arguments String.append : simpl nomatch.
Implicit Types (W : World) (visited : gset string) (url : string).






(** *** The records that [save_documentation] writes *)




(** *** The two files *)











End ApiFacts.
